(* ===== verification/_CoqProject ===== *)
-Q . S2P
Prelude.v
Env.v
Version.v
JsNumber.v
NodePath.v
Manifest.v
Targets.v
Build.v
