(* ===== verification/Prelude.v ===== *)
(** * A verified model of the add-on build configuration script

    The program is [src/scripts/build.ts] of the add-on boilerplate: a
    script that reads a handful of environment variables, resolves a build
    mode and a semantic version, synthesises the two manifest documents of
    a Minecraft Bedrock add-on (the behaviour pack and the resource pack),
    computes the output directories and archive requests of the build, and
    hands the assembled configuration once to [builder.build] of the
    external package [@mcbe-toolbox-lc/builder].  Data flows one way:
    environment, then mode and version, then display name, then manifests
    and target plan, then the configuration, then the orchestrator.

    ** Files, in dependency order, and what they model

    - [Prelude] (this file): the string toolkit shared by the components.
      [String.prototype.split] with a one-character separator is
      [split_on], [Array.prototype.join] is [join] (the Standard Library's
      [String.concat]), a template literal ["${a}/${b}"] is [a </> b] in
      [build_scope], and [strip_prefix] removes a known prefix.  Lemmas: split after join, join after split, split of
      a concatenation, characters of a join.  The rewrite database
      [strs_rw] (with the tactic [strs_simpl]) normalises [String.append];
      the hint database [strs] holds the facts on split pieces.
    - [Env]: [process.env] as a [gmap string string]; the builder package's
      readers [getEnv], [getEnvWithFallback], [getEnvRequired] (modelled
      from the specification); the errors [ConfigError]; the monad [EnvM]
      (reader of the environment, errors as [inl], a log of the names read,
      notation [x <- m ;; k] in [env_scope]) with its laws in [Section
      Laws]; the mode resolver [isDev], [shouldWatch] of lines 14-15, with
      JavaScript's [Boolean] as [js_Boolean].
    - [Version]: [parseVersionString] (from the specification: exactly
      three non-empty runs of decimal digits, parsed with the Standard
      Library's [DecimalString]), [js_number_to_string], [versionLabel]
      (line 30) and [resolveVersion] (lines 27-29).
    - [JsNumber]: the same lines over JavaScript Numbers: [round_double]
      (a digit run's Number value: 53-bit significand, ties to even,
      [Infinity] from 2^1024), [number_to_string] (ECMAScript's
      [Number::toString]: the shortest digits that round back, exponent
      form from 10^21), [js_parseVersionString] and [js_versionLabel].
    - [NodePath]: [Module posix] with Node's [path.posix.join],
      [normalize] and [normalizeString] (Node is not in the repository; the
      model follows Node's algorithm); plain paths are normal, joining plain
      pieces is concatenation with "/", a joined path ends with the name
      joined whatever the directory, [normalize] is idempotent, and
      [path_equiv] (two spellings of one directory: same leading slash,
      same pieces kept) is an [Equivalence] under which joining a relative
      name is [Proper].
    - [Manifest]: JSON values ([json], fields kept in source order),
      [addonConfig] (lines 21-25), [displayName] (line 33), the UUID table
      [uuids] (lines 37-43), [bpManifest] and [rpManifest] (lines 52-106)
      as functions of the display name and the version array, and
      [Module Spec]: the typed
      manifest of the specification, a decoder from JSON, and the two
      documents [behavior_manifest] and [resource_manifest] it specifies.
    - [Targets]: [TargetPlan], the three arrays of lines 112-114 as a
      record threaded as explicit state, [push_bp], [push_rp],
      [push_archive] for [Array.prototype.push], the branches [devTargets]
      (lines 117-127, in [EnvM] because of the two required reads) and
      [prodTargets] (lines 129-138), and [targetPlan] (lines 116-139);
      [dev_dirs_equiv], the environments that spell the live-pack
      directories differently, an [Equivalence] with [targetPlan] [Proper]
      for it.
    - [Build]: the [ConfigInput] records and [config] (lines 145-165),
      [buildConfig], the whole script as one [EnvM] computation composed
      like the source, the specification's description of a configuration
      [config_spec]; the orchestrator as the type class [Orchestrator]
      (the contract of [builder.build] in section 4.6: manifests into every
      output directory, the script bundle at [bundle_output] in every
      behaviour output directory, archives written), [main] (line 167),
      and the instance [FsOrchestrator], a file system of manifests,
      bundles and archives that discharges the class laws.

    ** What the theorems show (claim ids C1-C26, by importance)

    - The script as a whole ([Build]): every resolved configuration refines
      the specification's configuration; the script fails exactly in the
      two cases of section 7, an empty [VERSION] being one of them (it is
      present, so the fallback is not used); for every lawful orchestrator
      a successful
      run installs the specified manifests in every output directory and
      writes every archive, and the behaviour manifest's script entry names
      the bundle the build wrote beside it; the pack identifiers are the same in every build; the
      configuration depends on the live-pack variables only through the
      directories they name (the [Proper] instance [targetPlan_proper]);
      the environment is read in the order DEV, WATCH, VERSION, then the
      two live-pack directories only in development mode.
    - The target plan ([Targets]): the plan of each mode, the errors of
      development mode, counts per mode (archives only in production),
      pairwise distinct output directories whatever the environment names,
      no path shared by a development and a production plan or by the
      production plans of two versions, each live directory the child of
      the directory its variable names, every planned path in
      [posix.normalize] normal form (by idempotence
      of [posix.normalize], proved in [NodePath] through an invariant on
      the stack of kept pieces).
    - The manifests ([Manifest]): refinement of the JSON literals into the
      specified documents, the identity fields the two documents share,
      the cross-pack link, the display name
      (DEV in development, a different name for every release).
    - The version ([Version], [JsNumber]): the error characterisation
      and the default version; over JavaScript Numbers, the
      natural-number model is exact below 2^53; a canonical version whose
      Numbers are below 2^53 is labelled "v" followed by the string
      itself, and 2^53 + 1 already is not (it is labelled with 2^53);
      below 10^21 the printed label parses back to the same Numbers,
      beyond 2^53 too (rounding is idempotent, and a value that rounds
      below 10^21 prints in full).  The round trip of the
      natural-number model alone ([label_parse_roundtrip]) is a helper
      lemma, not a claim: it is false of the program from 2^53 on.
    - The mode ([Env]): the truthiness of [DEV].

    ** Bounds and fuel

    The script has no loop (the watch loop belongs to the orchestrator).
    Every function is
    structurally recursive on a string, a list or a [uint], except
    [shortest_from], whose fuel is the number of decimal digits of its
    argument: [Number::toString] never needs more significant digits than
    the integer has, and the output is proved right below 2^53 whatever
    the search returns.  Version components are unbounded [nat]s in the
    main model; [JsNumber] proves them exact below 2^53, and the version
    claims that depend on the bound are stated over Numbers.

    ** Not modelled

    Inside [builder.build]: bundling with esbuild (only where it writes the
    bundle is modelled), copying assets, texture list generation, zip
    writing and file watching; only the contract the script relies on is
    modelled.  Watch mode in particular is the builder's: the script only
    sets the flag [watch] (line 162), whose value is part of C1, and any
    theorem about the watcher would be about the contract chosen for it,
    not about the script.  The loading of [.env] by dotenv-cli:
    the model starts from the resulting environment map.

    The readers of the environment are not an interface class (the design
    note of section 9): [EnvM] already takes the environment as an
    explicit argument, so every resolution function is pure and the
    environment is injected at [main].  dotenv-cli's precedence between
    [.env], [-v] and the process environment is not in the repository and
    is not modelled.

    ** Plan for later work

    Deeper contracts of the orchestrator's own steps (asset copying,
    texture lists, archive contents) if the builder's behaviour becomes
    part of the specification. *)

From stdpp Require Import base list strings.
From Stdlib Require Import Ascii.

Declare Scope build_scope.
Delimit Scope build_scope with build.

(** ["${p}/${q}"]: a path built by a template literal. *)
Notation "p </> q" := (p +:+ "/" +:+ q)%string
  (at level 60, right associativity) : build_scope.

Create HintDb strs.
Create Rewrite HintDb strs_rw.

(** ** [String.append] *)

Lemma append_String (a : ascii) (s t : string) :
  String a s +:+ t = String a (s +:+ t).
Proof. reflexivity. Qed.

Lemma append_empty_l (s : string) : "" +:+ s = s.
Proof. reflexivity. Qed.

Lemma append_empty_r (s : string) : s +:+ "" = s.
Proof. induction s as [|a s IH]; [done|]. rewrite append_String, IH. done. Qed.

Lemma append_assoc (s t u : string) : (s +:+ t) +:+ u = s +:+ (t +:+ u).
Proof. induction s as [|a s IH]; [done|]. rewrite !append_String, IH. done. Qed.

#[export] Hint Rewrite append_String append_empty_l append_empty_r append_assoc : strs_rw.

Lemma append_inj_l (p s t : string) : p +:+ s = p +:+ t → s = t.
Proof. induction p as [|a p IH]; [done|]. rewrite !append_String. intros [= H]. by apply IH. Qed.

Ltac strs_simpl := autorewrite with strs_rw in *.

Lemma forallb_Forall {A} (f : A → bool) (l : list A) :
  forallb f l = true ↔ Forall (λ x, f x = true) l.
Proof.
  induction l as [|x l IH]; simpl; [split; [constructor|done]|].
  rewrite andb_true_iff, IH, Forall_cons. done.
Qed.

(** ** [String.prototype.split] with a one-character separator *)

(** [has_char c s]: the character [c] occurs in [s]. *)
Fixpoint has_char (c : ascii) (s : string) : bool :=
  match s with
  | EmptyString => false
  | String a s' => if decide (a = c) then true else has_char c s'
  end.

(** ["a/b".split("/")]: the pieces between the occurrences of [c]; the
    empty string splits into one empty piece, as in JavaScript. *)
Fixpoint split_on (c : ascii) (s : string) : list string :=
  match s with
  | EmptyString => [EmptyString]
  | String a s' =>
      let rest := split_on c s' in
      if decide (a = c) then EmptyString :: rest
      else match rest with
           | [] => [String a EmptyString]
           | h :: t => String a h :: t
           end
  end.

(** [Array.prototype.join] is the Standard Library's [String.concat]. *)
Abbreviation join := String.concat.

(** [s] without the prefix [pre], when it starts with it. *)
Fixpoint strip_prefix (pre s : string) : option string :=
  match pre, s with
  | EmptyString, _ => Some s
  | String a pre', String b s' => if decide (a = b) then strip_prefix pre' s' else None
  | String _ _, EmptyString => None
  end.

Lemma strip_prefix_app (pre s : string) : strip_prefix pre (pre +:+ s) = Some s.
Proof. induction pre as [|a pre IH]; [done|]. simpl. by rewrite decide_True. Qed.

Lemma join_cons_cons (sep x y : string) (l : list string) :
  join sep (x :: y :: l) = x +:+ sep +:+ join sep (y :: l).
Proof. reflexivity. Qed.

Lemma join_cons_prefix (sep x : string) (l : list string) :
  ∃ r, join sep (x :: l) = x +:+ r.
Proof. destruct l; [exists ""; by rewrite append_empty_r | by eexists]. Qed.

Lemma join_snoc (sep x : string) (l : list string) :
  l ≠ [] → join sep (l ++ [x]) = join sep l +:+ sep +:+ x.
Proof.
  induction l as [|y [|z l] IH]; intros Hl; [done|done|].
  replace (join sep ((y :: z :: l) ++ [x])) with (y +:+ sep +:+ join sep ((z :: l) ++ [x]))
    by reflexivity.
  rewrite IH, join_cons_cons by done. by rewrite !append_assoc.
Qed.

Lemma has_char_append (c : ascii) (s t : string) :
  has_char c (s +:+ t) = has_char c s || has_char c t.
Proof.
  induction s as [|a s IH]; [done|]. rewrite append_String. simpl.
  by case_decide.
Qed.

Lemma split_on_cons (c : ascii) (s : string) :
  ∃ h t, split_on c s = h :: t.
Proof.
  induction s as [|a s (h & t & IH)]; simpl; [by eauto|].
  rewrite IH. case_decide; eauto.
Qed.

Lemma split_on_no_char (c : ascii) (s : string) :
  has_char c s = false → split_on c s = [s].
Proof.
  induction s as [|a s IH]; [done|]. simpl. case_decide; [done|].
  intros Hs. by rewrite IH.
Qed.

Lemma split_on_app_sep (c : ascii) (s t : string) :
  split_on c (s +:+ String c t) = split_on c s ++ split_on c t.
Proof.
  induction s as [|a s IH]; simpl; [by case_decide|].
  rewrite IH. destruct (split_on_cons c s) as (h & tl & ->). by case_decide.
Qed.

Lemma split_on_pieces (c : ascii) (s : string) :
  Forall (λ x, has_char c x = false) (split_on c s).
Proof.
  induction s as [|a s IH]; simpl; [by constructor|].
  destruct (split_on_cons c s) as (h & tl & Hs). rewrite Hs in IH |- *.
  inversion IH; subst. case_decide; constructor; simpl; try case_decide; done.
Qed.

#[export] Hint Resolve split_on_pieces : strs.

(** A join has a character only if a piece or the separator has it. *)
Lemma has_char_join (c : ascii) (sep : string) (l : list string) :
  has_char c sep = false → Forall (λ x, has_char c x = false) l →
  has_char c (join sep l) = false.
Proof.
  intros Hsep Hl. induction Hl as [|x [|y l] Hx Hl IH]; [done|done|].
  rewrite join_cons_cons, !has_char_append, Hx, Hsep, IH. done.
Qed.

(** The last piece of ["${p}/${s}"] is [s] when [s] has no slash. *)
Lemma last_split_slash (p s : string) :
  has_char "/" s = false → last (split_on "/" (p +:+ "/" +:+ s)) = Some s.
Proof.
  intros Hs. rewrite append_String, append_empty_l, split_on_app_sep.
  by rewrite (split_on_no_char _ s), last_snoc.
Qed.

(** Splitting a join of separator-free pieces gives the pieces back. *)
Lemma split_on_join (c : ascii) (l : list string) :
  l ≠ [] → Forall (λ x, has_char c x = false) l →
  split_on c (join (String c EmptyString) l) = l.
Proof.
  induction l as [|x [|y l] IH]; intros Hne Hl; [done| |].
  - inversion Hl; subst. by apply split_on_no_char.
  - inversion Hl; subst. rewrite join_cons_cons.
    rewrite append_String, append_empty_l, split_on_app_sep, split_on_no_char by done.
    rewrite IH by done. done.
Qed.

(** Joining the pieces of a split gives the string back. *)
Lemma join_split_on (c : ascii) (s : string) :
  join (String c EmptyString) (split_on c s) = s.
Proof.
  induction s as [|a s IH]; [done|].
  destruct (split_on_cons c s) as (h & tl & Hs).
  cbn [split_on]. rewrite Hs in IH |- *.
  destruct (decide (a = c)) as [->|Hac].
  - by rewrite join_cons_cons, IH.
  - destruct tl as [|h' tl]; [simpl in *; by subst|].
    rewrite join_cons_cons in IH |- *. by rewrite append_String, IH.
Qed.
