(* ===== verification/Env.v ===== *)
(** * Env: the environment, configuration errors and the mode resolver

    [process.env] is a finite map from variable names to strings.  The
    script reads it only through the three readers of the builder package
    ([getEnv], [getEnvWithFallback], [getEnvRequired]), modelled here from
    the specification.  Reading is effectful in two ways that matter to the
    script: a required variable that is absent aborts the script with a
    [ConfigError], and the reads happen in a fixed order.  [EnvM] is a
    reader/error monad that records the names read, so both are explicit.

    The mode resolver is lines 14-15 of build.ts: [Boolean(getEnv(..))]. *)

From stdpp Require Import base list strings gmap.
From S2P Require Import Prelude.

Abbreviation env := (gmap string string).

(** The two fatal errors of the configuration pipeline. *)
Inductive ConfigError :=
| MissingEnv (name : string)
| InvalidVersion (raw : string).

#[export] Instance ConfigError_eq_dec : EqDecision ConfigError.
Proof. solve_decision. Defined.

(** ** The reader/error monad with a log of the variables read *)

Definition EnvM (A : Type) : Type := env → list string * (ConfigError + A).

Definition ret {A} (a : A) : EnvM A := λ _, ([], inr a).

Definition throw {A} (err : ConfigError) : EnvM A := λ _, ([], inl err).

Definition bind {A B} (m : EnvM A) (k : A → EnvM B) : EnvM B := λ e,
  match m e with
  | (l1, inl err) => (l1, inl err)
  | (l1, inr a) => let '(l2, r) := k a e in (l1 ++ l2, r)
  end.

Declare Scope env_scope.
Delimit Scope env_scope with env.
Notation "x <- m ;; k" := (bind m (λ x, k))
  (at level 100, m at next level, right associativity) : env_scope.
Open Scope env_scope.

(** A pure computation that may fail, run inside [EnvM]: it reads nothing. *)
Definition liftE {A} (r : ConfigError + A) : EnvM A := λ _, ([], r).

(** The primitive effect: read one variable. *)
Definition read (name : string) : EnvM (option string) :=
  λ e, ([name], inr (e !! name)).

(** [reads] is the log of a run, [outcome] its result. *)
Definition reads {A} (m : EnvM A) (e : env) : list string := fst (m e).
Definition outcome {A} (m : EnvM A) (e : env) : ConfigError + A := snd (m e).

(** ** The builder package's environment readers *)

(** [builder.getEnv(name)]: the value, or [undefined]. *)
Definition getEnv (name : string) : EnvM (option string) := read name.

(** [builder.getEnvWithFallback(name, fallback)]. *)
Definition getEnvWithFallback (name fallback : string) : EnvM string :=
  v <- getEnv name ;; ret (from_option id fallback v).

(** [builder.getEnvRequired(name)]: a missing variable is fatal. *)
Definition getEnvRequired (name : string) : EnvM string :=
  v <- getEnv name ;;
  match v with
  | Some s => ret s
  | None => throw (MissingEnv name)
  end.

(** ** The mode resolver (build.ts lines 14-15) *)

(** JavaScript's [Boolean(x)] on [string | undefined]: [undefined] and the
    empty string are falsy, every other string is truthy. *)
Definition js_Boolean (v : option string) : bool :=
  match v with
  | None => false
  | Some s => negb (String.eqb s "")
  end.

(** [const isDev = Boolean(builder.getEnv("DEV"))] *)
Definition isDev : EnvM bool := v <- getEnv "DEV" ;; ret (js_Boolean v).

(** [const shouldWatch = Boolean(builder.getEnv("WATCH"))] *)
Definition shouldWatch : EnvM bool := v <- getEnv "WATCH" ;; ret (js_Boolean v).

(** ** Monad laws and the equations of a run *)

Section Laws.
Context {A B C : Type}.

Lemma bind_ret_l (a : A) (k : A → EnvM B) (e : env) :
  bind (ret a) k e = k a e.
Proof. unfold bind, ret. destruct (k a e). done. Qed.

Lemma bind_ret_r (m : EnvM A) (e : env) : bind m ret e = m e.
Proof. unfold bind, ret. destruct (m e) as [l [|]]; by rewrite ?app_nil_r. Qed.

Lemma bind_assoc (m : EnvM A) (k : A → EnvM B) (h : B → EnvM C) (e : env) :
  bind (bind m k) h e = bind m (λ a, bind (k a) h) e.
Proof.
  unfold bind. destruct (m e) as [l1 [err|a]]; [done|].
  destruct (k a e) as [l2 [err|b]]; [done|].
  destruct (h b e) as [l3 r]. by rewrite app_assoc.
Qed.

(** A step that succeeds passes its value and its log on. *)
Lemma bind_inr (m : EnvM A) (k : A → EnvM B) (e : env) l a :
  m e = (l, inr a) → bind m k e = (l ++ fst (k a e), snd (k a e)).
Proof. unfold bind. intros ->. by destruct (k a e). Qed.

(** A step that fails aborts the rest: nothing after it is read. *)
Lemma bind_inl (m : EnvM A) (k : A → EnvM B) (e : env) l err :
  m e = (l, inl err) → bind m k e = (l, inl err).
Proof. unfold bind. by intros ->. Qed.
End Laws.

Lemma getEnv_run (name : string) (e : env) :
  getEnv name e = ([name], inr (e !! name)).
Proof. reflexivity. Qed.

Lemma getEnvRequired_present (name v : string) (e : env) :
  e !! name = Some v → getEnvRequired name e = ([name], inr v).
Proof. intros H. unfold getEnvRequired, bind, getEnv, read. by rewrite H. Qed.

Lemma getEnvRequired_absent (name : string) (e : env) :
  e !! name = None → getEnvRequired name e = ([name], inl (MissingEnv name)).
Proof. intros H. unfold getEnvRequired, bind, getEnv, read. by rewrite H. Qed.

Lemma getEnvWithFallback_run (name fb : string) (e : env) :
  getEnvWithFallback name fb e = ([name], inr (from_option id fb (e !! name))).
Proof. reflexivity. Qed.

Lemma isDev_run (e : env) : isDev e = (["DEV"], inr (js_Boolean (e !! "DEV"))).
Proof. reflexivity. Qed.

Lemma shouldWatch_run (e : env) :
  shouldWatch e = (["WATCH"], inr (js_Boolean (e !! "WATCH"))).
Proof. reflexivity. Qed.

#[export] Hint Rewrite @bind_ret_l getEnv_run getEnvWithFallback_run isDev_run
  shouldWatch_run : strs_rw.

Lemma js_Boolean_true (v : option string) :
  js_Boolean v = true ↔ ∃ s, v = Some s ∧ s ≠ "".
Proof.
  destruct v as [s|]; simpl; [|naive_solver].
  destruct (String.eqb_spec s ""); naive_solver.
Qed.

(** ** Properties of the mode resolver *)

(** C26: the development flag is set exactly when [DEV] holds a non-empty
    string; an absent [DEV] resolves to production, the safe default. *)
Theorem isDev_iff (e : env) :
  outcome isDev e = inr true ↔ ∃ s, e !! "DEV" = Some s ∧ s ≠ "".
Proof.
  unfold outcome. rewrite isDev_run. simpl. rewrite <- js_Boolean_true.
  split; [by intros [= ->] | by intros ->].
Qed.

