(* ===== verification/Version.v ===== *)
(** * Version: parsing and printing the semantic version

    Lines 28-30 of build.ts:
    [versionRaw = builder.getEnvWithFallback("VERSION", "0.0.1")],
    [versionArray = builder.parseVersionString(versionRaw)] and
    [versionLabel = "v" + versionArray.join(".")].

    [parseVersionString] belongs to the builder package and is modelled from
    the specification: three dot-separated non-negative integers, anything
    else is a [ConfigError].  A component is a non-empty run of decimal
    digits, read with the Standard Library's decimal parser.  Components are
    unbounded naturals printed as their decimal digits
    ([js_number_to_string]); a JavaScript Number agrees with this only
    below 2^53 ([JsNumber]), so the theorems of the script state their
    version facts over [JsNumber] where the bound matters. *)

From stdpp Require Import base list strings.
From Stdlib Require Import Ascii Decimal DecimalString DecimalNat DecimalFacts.
From S2P Require Import Prelude Env.

(** ** Definitions *)

Definition is_digit (a : ascii) : bool :=
  match a with
  | "0" | "1" | "2" | "3" | "4" | "5" | "6" | "7" | "8" | "9" => true
  | _ => false
  end%char.

Fixpoint all_digits (s : string) : bool :=
  match s with
  | EmptyString => true
  | String a s' => is_digit a && all_digits s'
  end.

(** A non-empty run of decimal digits. *)
Definition is_decimal (s : string) : bool :=
  match s with
  | EmptyString => false
  | _ => all_digits s
  end.

(** [Number.prototype.toString] of a non-negative integer. *)
Definition js_number_to_string (n : nat) : string :=
  NilEmpty.string_of_uint (Nat.to_uint n).

(** One version component. *)
Definition parse_component (s : string) : option nat :=
  Nat.of_uint <$> NilZero.uint_of_string s.

(** [builder.parseVersionString(raw)]: exactly three components. *)
Definition parseVersionString (raw : string) : ConfigError + list nat :=
  match split_on "." raw with
  | [a; b; c] =>
      match parse_component a, parse_component b, parse_component c with
      | Some x, Some y, Some z => inr [x; y; z]
      | _, _, _ => inl (InvalidVersion raw)
      end
  | _ => inl (InvalidVersion raw)
  end.

(** [const versionLabel = "v" + versionArray.join(".")] *)
Definition versionLabel (versionArray : list nat) : string :=
  "v" +:+ join "." (map js_number_to_string versionArray).

(** Lines 28-29: the raw version with its fallback, then its parse. *)
Definition resolveVersion : EnvM (list nat) :=
  versionRaw <- getEnvWithFallback "VERSION" "0.0.1" ;;
  liftE (parseVersionString versionRaw).

(** The shape [parseVersionString] accepts: three non-empty digit runs. *)
Definition version_shape (raw : string) : bool :=
  match split_on "." raw with
  | [a; b; c] => is_decimal a && is_decimal b && is_decimal c
  | _ => false
  end.

(** A digit run in canonical form: no leading zero unless it is "0". *)
Definition is_canonical (s : string) : bool :=
  match s with
  | String "0" EmptyString => true
  | String "0" _ => false
  | _ => is_decimal s
  end%char.

Definition canonical_version (raw : string) : bool :=
  match split_on "." raw with
  | [a; b; c] => is_canonical a && is_canonical b && is_canonical c
  | _ => false
  end.

(** ** Digits, decimal strings and the Standard Library's parser *)

Lemma uint_of_string_digits (s : string) :
  is_Some (NilEmpty.uint_of_string s) ↔ all_digits s = true.
Proof.
  induction s as [|a s IH]; simpl; [split; eauto|].
  destruct (NilEmpty.uint_of_string s) as [d|]; simpl.
  - assert (all_digits s = true) as -> by (apply IH; eauto).
    destruct a as [[] [] [] [] [] [] [] []]; simpl; split; intros H;
      try done; try (destruct H; discriminate); eauto.
  - rewrite andb_comm. destruct (all_digits s).
    + destruct (proj2 IH eq_refl) as [? [=]].
    + simpl. split; [intros [? [=]]|done].
Qed.

Lemma parse_component_decimal (s : string) :
  is_Some (parse_component s) ↔ is_decimal s = true.
Proof.
  unfold parse_component, is_decimal. destruct s as [|a s']; [split; [intros []|]; done|].
  rewrite <- uint_of_string_digits. unfold NilZero.uint_of_string.
  destruct (NilEmpty.uint_of_string _); simpl; split; intros [? Hx]; simplify_eq; eauto.
Qed.

Lemma digits_no_char (c : ascii) (d : uint) :
  is_digit c = false → has_char c (NilEmpty.string_of_uint d) = false.
Proof.
  intros Hc. induction d; simpl; try done; case_decide; subst; done.
Qed.

Lemma digits_no_dot (d : uint) : has_char "." (NilEmpty.string_of_uint d) = false.
Proof. by apply digits_no_char. Qed.

Lemma to_uint_nonnil (n : nat) : Nat.to_uint n ≠ Nil.
Proof.
  rewrite <- (Unsigned.of_to n), Unsigned.to_of. apply unorm_nonnil.
Qed.

Lemma parse_component_print (n : nat) :
  parse_component (js_number_to_string n) = Some n.
Proof.
  unfold parse_component, js_number_to_string.
  pose proof (to_uint_nonnil n) as Hn.
  assert (NilEmpty.string_of_uint (Nat.to_uint n)
          = NilZero.string_of_uint (Nat.to_uint n)) as ->
    by (destruct (Nat.to_uint n); done).
  rewrite NilZero.usu by done. simpl. by rewrite Unsigned.of_to.
Qed.

Lemma js_number_no_dot (n : nat) : has_char "." (js_number_to_string n) = false.
Proof. apply digits_no_dot. Qed.

Lemma js_number_no_char (c : ascii) (n : nat) :
  is_digit c = false → has_char c (js_number_to_string n) = false.
Proof. apply digits_no_char. Qed.

(** A version label has no slash: it is one piece of a path. *)
Lemma versionLabel_no_slash (v : list nat) : has_char "/" (versionLabel v) = false.
Proof.
  unfold versionLabel. rewrite has_char_append, has_char_join; [done|done|].
  apply Forall_forall. intros x (n & <- & _)%list_elem_of_In%in_map_iff.
  by apply js_number_no_char.
Qed.

Lemma js_number_nonempty (n : nat) : js_number_to_string n ≠ "".
Proof.
  unfold js_number_to_string. pose proof (to_uint_nonnil n).
  destruct (Nat.to_uint n); done.
Qed.

(** A canonical digit run is the printed form of the number it parses to. *)
Lemma canonical_component_print (s : string) :
  is_canonical s = true → ∃ n, parse_component s = Some n ∧ js_number_to_string n = s.
Proof.
  intros Hc.
  assert (is_decimal s = true) as Hdec.
  { destruct s as [|a [|b s]]; [done| |]; unfold is_canonical in Hc;
      destruct a as [[] [] [] [] [] [] [] []]; done. }
  destruct (proj2 (parse_component_decimal s) Hdec) as [n Hn].
  exists n. split; [done|]. unfold parse_component in Hn.
  destruct (NilZero.uint_of_string s) as [d|] eqn:Hd; simplify_eq/=.
  pose proof (NilZero.sus _ _ Hd) as Hsd.
  unfold js_number_to_string. rewrite Unsigned.to_of.
  destruct s as [|a s']; [done|].
  destruct d; simpl in Hsd; try done; simplify_eq/=; try done.
  (* a leading zero: only the string "0" is canonical *)
  destruct d; simpl in Hc; done.
Qed.

(** The pieces of a printed version. *)
Lemma split_printed_version (l : list nat) :
  l ≠ [] → split_on "." (join "." (map js_number_to_string l)) = map js_number_to_string l.
Proof.
  intros Hl. apply split_on_join.
  - by destruct l.
  - apply Forall_forall. intros x (n & <- & _)%list_elem_of_In%in_map_iff.
    apply js_number_no_dot.
Qed.

Lemma parse_component_is_decimal (s : string) (n : nat) :
  parse_component s = Some n → is_decimal s = true.
Proof. intros H. apply parse_component_decimal. by rewrite H. Qed.

Lemma parse_component_None (s : string) :
  parse_component s = None → is_decimal s = false.
Proof.
  intros H. apply not_true_iff_false. rewrite <- parse_component_decimal, H.
  by intros [? ?].
Qed.

Lemma js_number_inj (m n : nat) : js_number_to_string m = js_number_to_string n → m = n.
Proof.
  intros H. apply (f_equal parse_component) in H.
  rewrite !parse_component_print in H. by simplify_eq.
Qed.

Lemma map_js_number_inj (l1 l2 : list nat) :
  map js_number_to_string l1 = map js_number_to_string l2 → l1 = l2.
Proof.
  revert l2. induction l1 as [|m l1 IH]; intros [|n l2] H; try done.
  injection H as Hm Hl. f_equal; [by apply js_number_inj | by apply IH].
Qed.

(** Rewrite a [parse_component] equation into the [is_decimal] it decides. *)
Ltac decimal_facts :=
  repeat match goal with
  | H : parse_component _ = Some _ |- _ => apply parse_component_is_decimal in H
  | H : parse_component _ = None |- _ => apply parse_component_None in H
  end.

(** What [parseVersionString] returns, by the shape of its input. *)
Lemma parse_shape (raw : string) :
  match parseVersionString raw with
  | inl e => e = InvalidVersion raw ∧ version_shape raw = false
  | inr _ => version_shape raw = true
  end.
Proof.
  unfold parseVersionString, version_shape.
  destruct (split_on "." raw) as [|a [|b [|c [|? ?]]]]; try done.
  destruct (parse_component a) eqn:Ha, (parse_component b) eqn:Hb,
    (parse_component c) eqn:Hc; decimal_facts; rewrite ?Ha, ?Hb, ?Hc;
    rewrite ?andb_false_r; done.
Qed.

Lemma resolveVersion_run (e : env) :
  resolveVersion e
  = (["VERSION"], parseVersionString (from_option id "0.0.1" (e !! "VERSION"))).
Proof.
  unfold resolveVersion. rewrite (bind_inr _ _ _ ["VERSION"] _) by done. done.
Qed.

(** ** Properties of the version resolver *)

(** In the natural-number model a version string of three canonical
    integers (no leading zeros) parses, and its label is "v" followed by
    the string; [JsNumber.js_label_reproduces_version] is the statement
    over JavaScript Numbers, where it needs components below 2^53. *)
Lemma label_parse_roundtrip (raw : string) :
  canonical_version raw = true →
  ∃ v, parseVersionString raw = inr v ∧ versionLabel v = "v" +:+ raw.
Proof.
  unfold canonical_version, parseVersionString, versionLabel. intros H.
  pose proof (join_split_on "." raw) as Hj.
  destruct (split_on "." raw) as [|a [|b [|c [|? ?]]]]; try done.
  apply andb_prop in H as [[Ha Hb]%andb_prop Hc].
  destruct (canonical_component_print a Ha) as (x & -> & Hx),
    (canonical_component_print b Hb) as (y & -> & Hy),
    (canonical_component_print c Hc) as (z & -> & Hz).
  eexists; split; [done|]. cbn [map]. by rewrite Hx, Hy, Hz, Hj.
Qed.

Lemma parse_length (raw : string) (v : list nat) :
  parseVersionString raw = inr v → length v = 3.
Proof.
  unfold parseVersionString.
  destruct (split_on "." raw) as [|a [|b [|c [|? ?]]]]; try done.
  destruct (parse_component a), (parse_component b), (parse_component c);
    intros; simplify_eq; done.
Qed.

Lemma parse_error_iff (raw : string) (err : ConfigError) :
  parseVersionString raw = inl err ↔ err = InvalidVersion raw ∧ version_shape raw = false.
Proof.
  pose proof (parse_shape raw) as Hs.
  destruct (parseVersionString raw) as [e|v]; split.
  - by intros [= <-].
  - intros [-> _]. by destruct Hs as [-> _].
  - done.
  - intros [_ Hf]. congruence.
Qed.

(** C18: version resolution fails, with the raw string in the error,
    exactly when the raw string (the fallback "0.0.1" when [VERSION] is
    absent) is not three dot-separated non-empty digit runs: "1.2" and
    "1.2.x" fail. *)
Theorem resolveVersion_error_iff (e : env) (err : ConfigError) :
  outcome resolveVersion e = inl err ↔
  let raw := from_option id "0.0.1" (e !! "VERSION") in
  err = InvalidVersion raw ∧ version_shape raw = false.
Proof. unfold outcome. rewrite resolveVersion_run. apply parse_error_iff. Qed.

Lemma resolveVersion_error_iff_witness :
  outcome resolveVersion {[ "VERSION" := "1.2" ]} = inl (InvalidVersion "1.2")
  ∧ outcome resolveVersion {[ "VERSION" := "1.2.x" ]} = inl (InvalidVersion "1.2.x").
Proof. split; apply resolveVersion_error_iff; split; reflexivity. Defined.

(** C19: with no [VERSION] variable the version is 0.0.1, labelled
    "v0.0.1", and only [VERSION] is read. *)
Theorem resolveVersion_default (e : env) :
  e !! "VERSION" = None →
  resolveVersion e = (["VERSION"], inr [0; 0; 1]) ∧ versionLabel [0; 0; 1] = "v0.0.1".
Proof. intros H. rewrite resolveVersion_run, H. split; reflexivity. Qed.

Lemma resolveVersion_default_witness :
  resolveVersion ∅ = (["VERSION"], inr [0; 0; 1]) ∧ versionLabel [0; 0; 1] = "v0.0.1".
Proof. apply resolveVersion_default. reflexivity. Defined.

(** Distinct versions have distinct labels. *)
Lemma versionLabel_inj (v w : list nat) : versionLabel v = versionLabel w → v = w.
Proof.
  unfold versionLabel. intros [= H]. rewrite !append_empty_l in H.
  destruct v as [|m v], w as [|n w]; [done| | |].
  - destruct (join_cons_prefix "." (js_number_to_string n) (map js_number_to_string w))
      as [r Hr]. cbn [map] in H. rewrite Hr in H.
    pose proof (js_number_nonempty n). by destruct (js_number_to_string n).
  - destruct (join_cons_prefix "." (js_number_to_string m) (map js_number_to_string v))
      as [r Hr]. cbn [map] in H. rewrite Hr in H.
    pose proof (js_number_nonempty m). by destruct (js_number_to_string m).
  - apply (f_equal (split_on ".")) in H.
    rewrite !split_printed_version in H by done.
    by apply map_js_number_inj.
Qed.
