(* ===== verification/JsNumber.v ===== *)
(** * JsNumber: version components as the JavaScript numbers of the source

    [versionArray] (line 29) is a [number[]]: the builder converts each
    digit run to a JavaScript Number, an IEEE-754 double, and line 30
    prints each back with [Number.prototype.toString] inside
    [Array.prototype.join].  The development's main model keeps the
    components as unbounded naturals; this file gives the JavaScript
    semantics of both conversions and bounds where the two agree.

    - [round_double]: the Number value of a non-negative integer, rounded
      to nearest with ties to even on a 53-bit significand, and [Infinity]
      from 2^1024 on (ECMAScript's "Number value for x").
    - [number_to_string]: [Number::toString] of a non-negative integral
      Number (ECMAScript 6.1.6.1.20): the fewest significant digits [s]
      whose value [s × 10^e] rounds back to the number, the nearer one (then
      the even one) among two, printed in full below 10^21 and in exponent
      form ["d.ddde+n"] from 10^21 on.  Below 10^21 "the digits of [s]
      followed by [e] zeros" is the decimal of the integer [s × 10^e],
      which is how it is written here.
    - [js_parseVersionString] and [js_versionLabel]: lines 29-30 over
      Numbers.

    The theorems: below 2^53 every component converts exactly and prints
    as its digits, so the natural-number model of [Version] is exact there
    ([js_version_exact]), and a canonical version string is its own label
    after the "v" ([js_label_reproduces_version]); just above, 2^53 + 1
    already is labelled with 2^53.  Below 10^21 the label round-trips over
    Numbers: rounding a Number gives it back ([round_double_idem]), the
    digits printed are those of a value that rounds to it, and they read
    back to it ([js_label_roundtrip]). *)

From stdpp Require Import base list strings.
From Stdlib Require Import Ascii ZArith Lia Decimal DecimalString DecimalNat DecimalN
  DecimalPos DecimalFacts.
From S2P Require Import Prelude Env Version.

(** ** Numbers *)

(** The non-negative integral Number values: a finite double holding an
    integer, or [Infinity]. *)
Inductive number :=
| Finite (x : N)
| Infinity.

#[export] Instance number_eq_dec : EqDecision number.
Proof. solve_decision. Defined.

Definition significand_bits : N := 53.

(** The Number value of the non-negative integer [n]: keep the 53 leading
    bits, rounding the dropped ones to nearest, ties to an even
    significand; a result of 2^1024 or more overflows to [Infinity]. *)
Definition round_double (n : N) : number :=
  let s := (N.log2 n + 1 - significand_bits)%N in
  let q := N.shiftr n s in
  let r := (n mod 2 ^ s)%N in
  let q' :=
    if (s =? 0)%N then q
    else if (2 ^ (s - 1) <? r)%N || ((r =? 2 ^ (s - 1))%N && N.odd q) then (q + 1)%N
    else q in
  let m := (q' * 2 ^ s)%N in
  if (2 ^ 1024 <=? m)%N then Infinity else Finite m.

(** ** [Number::toString] *)

(** The decimal digits of a natural number. *)
Definition decimal (x : N) : string := NilEmpty.string_of_uint (N.to_uint x).

Definition num_digits (x : N) : N := N.of_nat (String.length (decimal x)).

(** The two values with [k] significant digits around [x]: [s × 10^e] for
    [s = ⌊x / 10^e⌋] and [s + 1], where [e] leaves [k] digits; [10^k] is
    written with [k] digits as [10^(k-1) × 10^(e+1)]. *)
Definition candidates (x k : N) : list (N * N) :=
  let e := (num_digits x - k)%N in
  let lo := (x / 10 ^ e)%N in
  [(lo, e); if (lo + 1 =? 10 ^ k)%N then (10 ^ (k - 1), e + 1)%N else (lo + 1, e)%N].

Definition rounds_to (x : N) (c : N * N) : bool :=
  bool_decide (round_double (c.1 * 10 ^ c.2)%N = Finite x).

Definition dist (x : N) (c : N * N) : N :=
  let v := (c.1 * 10 ^ c.2)%N in if (v <=? x)%N then (x - v)%N else (v - x)%N.

(** Of two candidates with as many digits, the nearer to [x], and of two
    equally near the one with an even [s]. *)
Definition closest (x : N) (c1 c2 : N * N) : N * N :=
  if (dist x c1 <? dist x c2)%N then c1
  else if (dist x c2 <? dist x c1)%N then c2
  else if N.even c1.1 then c1 else c2.

(** The shortest [s], trying [k], [k + 1], ... significant digits. *)
Fixpoint shortest_from (fuel : nat) (x k : N) : option (N * N) :=
  match fuel with
  | O => None
  | S fuel' =>
      match filter (λ c, rounds_to x c = true) (candidates x k) with
      | [] => shortest_from fuel' x (k + 1)
      | [c] => Some c
      | c1 :: c2 :: _ => Some (closest x c1 c2)
      end
  end.

(** A double's decimal has at most as many significant digits as it has
    digits, so [num_digits x] attempts reach it. *)
Definition shortest (x : N) : option (N * N) :=
  shortest_from (N.to_nat (num_digits x)) x 1.

(** Steps 7 and 10 of [Number::toString]: in full below 10^21, else
    ["d.ddd"] (["d"] for one digit) then ["e+"] and [n - 1]. *)
Definition format (s e : N) : string :=
  if (s * 10 ^ e <? 10 ^ 21)%N then decimal (s * 10 ^ e)
  else
    let ds := decimal s in
    let n := (num_digits s + e)%N in
    match ds with
    | String d rest =>
        String d (if (num_digits s =? 1)%N then "" else String "." rest)
          +:+ "e+" +:+ decimal (n - 1)
    | EmptyString => EmptyString
    end.

(** [Number::toString(x)] for a non-negative integral Number. *)
Definition number_to_string (x : number) : string :=
  match x with
  | Infinity => "Infinity"
  | Finite x =>
      if (x =? 0)%N then "0"
      else match shortest x with
           | Some (s, e) => format s e
           | None => decimal x
           end
  end.

(** ** Lines 29-30 over Numbers *)

(** A component converted to a Number. *)
Definition js_parse_component (s : string) : option number :=
  (λ d, round_double (N.of_uint d)) <$> NilZero.uint_of_string s.

(** [builder.parseVersionString(raw)] with Number components. *)
Definition js_parseVersionString (raw : string) : ConfigError + list number :=
  match split_on "." raw with
  | [a; b; c] =>
      match js_parse_component a, js_parse_component b, js_parse_component c with
      | Some x, Some y, Some z => inr [x; y; z]
      | _, _, _ => inl (InvalidVersion raw)
      end
  | _ => inl (InvalidVersion raw)
  end.

(** [const versionLabel = "v" + versionArray.join(".")] over Numbers. *)
Definition js_versionLabel (versionArray : list number) : string :=
  "v" +:+ join "." (map number_to_string versionArray).

(** ** Naturals and [N] agree on decimals *)

Lemma of_lu_N (d : uint) :
  N.of_nat (DecimalNat.Unsigned.of_lu d) = DecimalPos.Unsigned.of_lu d.
Proof. induction d; simpl; lia. Qed.

Lemma N_of_uint_nat (d : uint) : N.of_uint d = N.of_nat (Nat.of_uint d).
Proof.
  rewrite DecimalNat.Unsigned.of_uint_alt, of_lu_N.
  exact (DecimalPos.Unsigned.of_uint_alt d).
Qed.

Lemma to_uint_N (n : nat) : Nat.to_uint n = N.to_uint (N.of_nat n).
Proof.
  assert (Nat.of_uint (N.to_uint (N.of_nat n)) = n) as Hn.
  { apply Nat2N.inj. by rewrite <- N_of_uint_nat, DecimalN.Unsigned.of_to. }
  rewrite <- Hn at 1. rewrite DecimalNat.Unsigned.to_of.
  by rewrite <- DecimalN.Unsigned.to_of, DecimalN.Unsigned.of_to.
Qed.

(** The natural-number printer of [Version] is [decimal]. *)
Lemma js_number_to_string_decimal (n : nat) : js_number_to_string n = decimal (N.of_nat n).
Proof. unfold js_number_to_string, decimal. by rewrite to_uint_N. Qed.

Lemma js_parse_component_nat (s : string) (k : nat) :
  parse_component s = Some k → js_parse_component s = Some (round_double (N.of_nat k)).
Proof.
  unfold parse_component, js_parse_component.
  destruct (NilZero.uint_of_string s) as [d|]; [|done]. simpl. intros [= <-].
  by rewrite N_of_uint_nat.
Qed.

(** ** Rounding *)

Lemma pow53_le_1024 : (2 ^ 53 ≤ 2 ^ 1024)%N.
Proof. apply N.pow_le_mono_r; lia. Qed.

(** Below 2^53 every integer is a double. *)
Lemma round_double_small (n : N) : (n < 2 ^ 53)%N → round_double n = Finite n.
Proof.
  intros Hn. unfold round_double, significand_bits.
  assert (N.log2 n + 1 - 53 = 0)%N as ->.
  { destruct (N.eq_dec n 0) as [->|Hn0]; [reflexivity|].
    apply N.log2_lt_pow2 in Hn; lia. }
  rewrite N.shiftr_0_r, N.pow_0_r, N.mul_1_r. simpl.
  pose proof pow53_le_1024. by rewrite (proj2 (N.leb_gt _ _)) by lia.
Qed.

(** From 2^53 on, rounding stays at or above 2^53. *)
Lemma round_double_large (n m : N) :
  (2 ^ 53 ≤ n)%N → round_double n = Finite m → (2 ^ 53 ≤ m)%N.
Proof.
  intros Hn. unfold round_double, significand_bits.
  assert (53 ≤ N.log2 n)%N as Hlog.
  { rewrite <- (N.log2_pow2 53) by lia. by apply N.log2_le_mono. }
  set (s := (N.log2 n + 1 - 53)%N).
  assert (N.log2 n = 52 + s)%N as Hs by (unfold s; lia).
  assert (2 ^ 52 ≤ N.shiftr n s)%N as Hq.
  { rewrite N.shiftr_div_pow2. apply N.div_le_lower_bound; [by apply N.pow_nonzero|].
    rewrite N.mul_comm, <- N.pow_add_r, <- Hs. apply N.log2_spec. lia. }
  assert (2 ≤ 2 ^ s)%N as Hp.
  { rewrite <- (N.pow_1_r 2) at 1. apply N.pow_le_mono_r; lia. }
  assert (2 ^ 53 = 2 ^ 52 * 2)%N as H53 by reflexivity.
  destruct (s =? 0)%N; [|destruct (_ || _)];
    (destruct (2 ^ 1024 <=? _)%N; [done|]); intros [= <-]; nia.
Qed.

(** A candidate that rounds back to a number below 2^53 is that number. *)
Lemma rounds_to_exact (x : N) (c : N * N) :
  (x < 2 ^ 53)%N → rounds_to x c = true → (c.1 * 10 ^ c.2 = x)%N.
Proof.
  unfold rounds_to. rewrite bool_decide_eq_true. intros Hx H.
  destruct (N.lt_ge_cases (c.1 * 10 ^ c.2) (2 ^ 53)) as [Hl|Hg].
  - rewrite round_double_small in H by done. by injection H.
  - pose proof (round_double_large _ _ Hg H). lia.
Qed.

(** ** Printing *)

Lemma closest_cases (x : N) (c1 c2 : N * N) : closest x c1 c2 = c1 ∨ closest x c1 c2 = c2.
Proof. unfold closest. repeat case_match; auto. Qed.

(** The digits [Number::toString] picks round back to the number. *)
Lemma shortest_from_rounds (fuel : nat) (x k : N) (c : N * N) :
  shortest_from fuel x k = Some c → rounds_to x c = true.
Proof.
  revert k. induction fuel as [|fuel IH]; intros k; cbn [shortest_from]; [done|].
  assert (∀ c', c' ∈ filter (λ c, rounds_to x c = true) (candidates x k) →
            rounds_to x c' = true) as Hf by (intros c' ?%list_elem_of_filter; naive_solver).
  destruct (filter _ _) as [|c1 [|c2 l]] eqn:E; [apply IH | |].
  - intros [= <-]. apply Hf. by left.
  - intros [= <-]. destruct (closest_cases x c1 c2) as [->| ->]; apply Hf;
      [by left | by right; left].
Qed.

(** Below 2^53 a number prints as its decimal digits. *)
Lemma number_to_string_exact (x : N) :
  (x < 2 ^ 53)%N → number_to_string (Finite x) = decimal x.
Proof.
  intros Hx. simpl. destruct (N.eqb_spec x 0) as [->|_]; [reflexivity|].
  unfold shortest. destruct (shortest_from _ _ _) as [[s e]|] eqn:H; [|done].
  apply shortest_from_rounds, rounds_to_exact in H; [|done]. simpl in H.
  unfold format. rewrite H, (proj2 (N.ltb_lt x (10 ^ 21))); [done|].
  assert (2 ^ 53 < 10 ^ 21)%N by reflexivity. lia.
Qed.

Lemma label_components_exact (v : list nat) :
  Forall (λ n, N.of_nat n < 2 ^ 53)%N v →
  map number_to_string (map (λ n, Finite (N.of_nat n)) v) = map js_number_to_string v.
Proof.
  induction 1 as [|n v Hn _ IH]; [done|]. cbn [map]. f_equal; [|done].
  by rewrite number_to_string_exact, js_number_to_string_decimal.
Qed.

(** Lines 29-30 over Numbers convert each component of the
    natural-number model. *)
Lemma js_parse_nat (raw : string) (v : list nat) :
  parseVersionString raw = inr v →
  js_parseVersionString raw = inr (map (λ n, round_double (N.of_nat n)) v).
Proof.
  unfold parseVersionString, js_parseVersionString.
  destruct (split_on "." raw) as [|a [|b [|c [|]]]]; try done.
  destruct (parse_component a) as [x|] eqn:Ha, (parse_component b) as [y|] eqn:Hb,
    (parse_component c) as [z|] eqn:Hc; try done.
  intros [= <-]. by rewrite (js_parse_component_nat _ _ Ha),
    (js_parse_component_nat _ _ Hb), (js_parse_component_nat _ _ Hc).
Qed.

Lemma map_round_small (v : list nat) :
  Forall (λ n, N.of_nat n < 2 ^ 53)%N v →
  map (λ n, round_double (N.of_nat n)) v = map (λ n, Finite (N.of_nat n)) v.
Proof. induction 1; cbn [map]; [done|]. f_equal; [by apply round_double_small | done]. Qed.

(** A Number below 2^53 is the Number of itself only. *)
Lemma round_double_below (n m : N) :
  round_double n = Finite m → (m < 2 ^ 53)%N → n = m.
Proof.
  intros Hr Hm. destruct (N.lt_ge_cases n (2 ^ 53)) as [Hn|Hn].
  - rewrite round_double_small in Hr by done. congruence.
  - pose proof (round_double_large n m Hn Hr). lia.
Qed.

Lemma components_below_53 (v : list nat) :
  Forall (λ x, ∃ m, x = Finite m ∧ (m < 2 ^ 53)%N) (map (λ n, round_double (N.of_nat n)) v) →
  Forall (λ n, N.of_nat n < 2 ^ 53)%N v.
Proof.
  induction v as [|n v IH]; cbn [map]; [done|].
  intros (Hn & Hv)%Forall_cons. constructor; [|by apply IH].
  destruct Hn as (m & Hr & Hm). by rewrite (round_double_below _ _ Hr Hm).
Qed.

(** ** Where the natural-number model is exact *)

(** C20: below 2^53 the natural-number model of lines 29-30 is the
    JavaScript one: every parsed component converts to the Number holding
    it exactly, and the label printed from the Numbers is the label of the
    model. *)
Theorem js_version_exact (raw : string) (v : list nat) :
  parseVersionString raw = inr v → Forall (λ n, N.of_nat n < 2 ^ 53)%N v →
  js_parseVersionString raw = inr (map (λ n, Finite (N.of_nat n)) v)
  ∧ js_versionLabel (map (λ n, Finite (N.of_nat n)) v) = versionLabel v.
Proof.
  intros Hp Hb. split.
  - by rewrite (js_parse_nat _ _ Hp), map_round_small.
  - unfold js_versionLabel, versionLabel. by rewrite label_components_exact.
Qed.

Lemma js_version_exact_witness :
  parseVersionString "1.21.110" = inr [1; 21; 110]
  ∧ js_parseVersionString "1.21.110" = inr [Finite 1; Finite 21; Finite 110]
  ∧ js_versionLabel [Finite 1; Finite 21; Finite 110] = versionLabel [1; 21; 110].
Proof.
  assert (parseVersionString "1.21.110" = inr [1; 21; 110]) as Hp by reflexivity.
  split; [exact Hp|].
  apply (js_version_exact "1.21.110" [1; 21; 110] Hp).
  apply (bool_decide_unpack _). by vm_compute.
Defined.

(** C17: a version string of three canonical integers (no leading zeros)
    whose Numbers are below 2^53 gives the label "v" followed by the
    string itself, so the release's name and build root spell the version
    it was built from.  From 2^53 on this fails: "9007199254740993.0.0" is
    labelled "v9007199254740992.0.0" ([js_label_roundtrip_witness]). *)
Theorem js_label_reproduces_version (raw : string) (w : list number) :
  canonical_version raw = true → js_parseVersionString raw = inr w →
  Forall (λ x, ∃ m, x = Finite m ∧ (m < 2 ^ 53)%N) w →
  js_versionLabel w = "v" +:+ raw.
Proof.
  intros Hc Hp Hw. destruct (label_parse_roundtrip raw Hc) as (v & Hv & Hl).
  rewrite (js_parse_nat _ _ Hv) in Hp. injection Hp as <-.
  pose proof (components_below_53 v Hw) as Hb. rewrite map_round_small in * by done.
  unfold js_versionLabel, versionLabel in *. by rewrite label_components_exact.
Qed.

Lemma js_label_reproduces_version_witness :
  js_parseVersionString "9007199254740991.0.1"
    = inr [Finite 9007199254740991; Finite 0; Finite 1]
  ∧ js_versionLabel [Finite 9007199254740991; Finite 0; Finite 1]
    = "v" +:+ "9007199254740991.0.1".
Proof.
  assert (js_parseVersionString "9007199254740991.0.1"
          = inr [Finite 9007199254740991; Finite 0; Finite 1]) as Hp by (vm_compute; reflexivity).
  split; [exact Hp|]. apply (js_label_reproduces_version "9007199254740991.0.1" _ eq_refl Hp).
  repeat constructor; eexists; (split; [reflexivity | vm_compute; reflexivity]).
Defined.

(** ** Doubles print to digits that read back to them *)

Lemma pow_pos2 (k : N) : (2 ^ k ≠ 0)%N.
Proof. apply N.pow_nonzero. lia. Qed.

(** A value whose dropped bits are all zero is its own Number. *)
Lemma round_double_exact_div (m : N) :
  (m mod 2 ^ (N.log2 m + 1 - significand_bits) = 0)%N → (m < 2 ^ 1024)%N →
  round_double m = Finite m.
Proof.
  intros Hd Hm. unfold round_double. set (s := (N.log2 m + 1 - significand_bits)%N) in *.
  rewrite Hd, N.shiftr_div_pow2.
  assert (m / 2 ^ s * 2 ^ s = m)%N as Hq.
  { rewrite N.mul_comm. symmetry. by apply N.div_exact; [apply pow_pos2|]. }
  destruct (s =? 0)%N eqn:Hs0.
  - by rewrite Hq, (proj2 (N.leb_gt _ _) Hm).
  - assert (0 < 2 ^ (s - 1))%N by (apply N.neq_0_lt_0, pow_pos2).
    rewrite (proj2 (N.ltb_ge _ _)) by lia. rewrite (proj2 (N.eqb_neq _ _)) by lia.
    simpl. by rewrite Hq, (proj2 (N.leb_gt _ _) Hm).
Qed.

(** A finite Number is a significand of at most 53 bits times a power of
    two, below 2^1024. *)
Lemma round_double_shape (n m : N) :
  round_double n = Finite m → ∃ q t, m = (q * 2 ^ t)%N ∧ (q ≤ 2 ^ 53)%N ∧ (m < 2 ^ 1024)%N.
Proof.
  unfold round_double, significand_bits. set (s := (N.log2 n + 1 - 53)%N).
  assert (N.shiftr n s < 2 ^ 53)%N as Hq.
  { rewrite N.shiftr_div_pow2. destruct (N.eq_dec n 0) as [->|Hn].
    - rewrite N.div_0_l by apply pow_pos2. reflexivity.
    - apply N.div_lt_upper_bound; [apply pow_pos2|]. rewrite <- N.pow_add_r.
      eapply N.lt_le_trans; [apply N.log2_spec; lia|].
      apply N.pow_le_mono_r; [lia|]. unfold s. lia. }
  destruct (s =? 0)%N; [|destruct (_ || _)];
    (destruct (2 ^ 1024 <=? _)%N eqn:Hb; [done|]); intros [= <-];
    apply N.leb_gt in Hb; eexists _, s; (split; [reflexivity|]); lia.
Qed.

(** Rounding a Number changes nothing. *)
Lemma round_double_idem (n m : N) : round_double n = Finite m → round_double m = Finite m.
Proof.
  intros (q & t & -> & Hq & Hm)%round_double_shape. apply round_double_exact_div; [|done].
  unfold significand_bits. destruct (N.eq_dec q 0) as [->|Hq0]; [done|].
  rewrite N.log2_mul_pow2 by lia.
  assert (N.log2 q ≤ 53)%N as Hl.
  { rewrite <- (N.log2_pow2 53) by lia. by apply N.log2_le_mono. }
  destruct (N.lt_ge_cases (N.log2 q) 53) as [Hlt|Hge].
  - replace t with (t - (t + N.log2 q + 1 - 53) + (t + N.log2 q + 1 - 53))%N at 1 by lia.
    by rewrite N.pow_add_r, N.mul_assoc, N.mod_mul by apply pow_pos2.
  - assert (q = 2 ^ 53)%N as ->.
    { apply N.le_antisymm; [done|]. etrans; [|apply (N.log2_spec q); lia].
      apply N.pow_le_mono_r; lia. }
    replace (2 ^ 53 * 2 ^ t)%N with (2 ^ 52 * 2 ^ (t + 53 + 1 - 53))%N
      by (rewrite <- !N.pow_add_r; f_equal; lia).
    by rewrite N.mod_mul by apply pow_pos2.
Qed.

(** Rounding never goes below a multiple of the dropped bits' weight
    under the value. *)
Lemma round_double_lower (y m a : N) :
  round_double y = Finite m → (a ≤ y)%N →
  (a mod 2 ^ (N.log2 y + 1 - significand_bits) = 0)%N → (a ≤ m)%N.
Proof.
  intros Hr Hay Ha. unfold round_double, significand_bits in *.
  set (s := (N.log2 y + 1 - 53)%N) in *.
  assert (a ≤ N.shiftr y s * 2 ^ s)%N as Hlo.
  { assert (a = 2 ^ s * (a / 2 ^ s))%N as Ea by (apply N.div_exact; [apply pow_pos2 | done]).
    rewrite N.shiftr_div_pow2, Ea at 1. rewrite (N.mul_comm (y / _)).
    apply N.mul_le_mono_l, N.div_le_mono; [apply pow_pos2|done]. }
  revert Hr. destruct (s =? 0)%N; [|destruct (_ || _)];
    (destruct (2 ^ 1024 <=? _)%N; [done|]); intros [= <-]; nia.
Qed.

Lemma round_double_ge_1e21 (y m : N) :
  round_double y = Finite m → (10 ^ 21 ≤ y)%N → (10 ^ 21 ≤ m)%N.
Proof.
  intros Hr Hy. assert (y ≠ 0)%N as Hy0 by (intros ->; done).
  destruct (N.le_gt_cases (N.log2 y) 73) as [Hl|Hl].
  - apply (round_double_lower y m _ Hr Hy). unfold significand_bits.
    set (s := (N.log2 y + 1 - 53)%N).
    replace (10 ^ 21)%N with (2 ^ (21 - s) * 5 ^ 21 * 2 ^ s)%N; [by apply N.mod_mul, pow_pos2|].
    rewrite (N.mul_comm _ (2 ^ s)), N.mul_assoc, <- N.pow_add_r.
    replace (s + (21 - s))%N with 21%N by (unfold s; lia). reflexivity.
  - assert (2 ^ N.log2 y ≤ m)%N as Hm.
    { apply (round_double_lower y m _ Hr); [apply N.log2_spec; lia|].
      unfold significand_bits. replace (N.log2 y) with (N.log2 y - 52 + 52)%N at 1 by lia.
      rewrite N.pow_add_r. replace (N.log2 y + 1 - 53)%N with (N.log2 y - 52)%N by lia.
      rewrite N.mul_comm. apply N.mod_mul, pow_pos2. }
    assert (10 ^ 21 < 2 ^ 74)%N as H74 by reflexivity.
    assert (2 ^ 74 ≤ 2 ^ N.log2 y)%N by (apply N.pow_le_mono_r; lia). lia.
Qed.

Lemma N_to_uint_nonnil (y : N) : N.to_uint y ≠ Nil.
Proof.
  rewrite <- (DecimalN.Unsigned.of_to y), DecimalN.Unsigned.to_of. apply unorm_nonnil.
Qed.

(** Reading back the digits of [y] gives the Number of [y]. *)
Lemma js_parse_decimal (y : N) : js_parse_component (decimal y) = Some (round_double y).
Proof.
  unfold js_parse_component, decimal. pose proof (N_to_uint_nonnil y) as Hn.
  assert (NilEmpty.string_of_uint (N.to_uint y) = NilZero.string_of_uint (N.to_uint y)) as ->
    by (destruct (N.to_uint y); done).
  rewrite NilZero.usu by done. simpl. by rewrite DecimalN.Unsigned.of_to.
Qed.

(** A Number below 10^21 prints as the digits of a value that rounds to
    it. *)
Lemma number_to_string_double (x : N) :
  round_double x = Finite x → (x < 10 ^ 21)%N →
  ∃ y, number_to_string (Finite x) = decimal y ∧ round_double y = Finite x.
Proof.
  intros Hx Hlt. simpl. destruct (N.eqb_spec x 0) as [->|_]; [by exists 0%N|].
  unfold shortest. destruct (shortest_from _ _ _) as [[s e]|] eqn:H; [|by exists x].
  apply shortest_from_rounds in H. unfold rounds_to in H. simpl in H.
  apply bool_decide_eq_true in H. unfold format.
  destruct (N.ltb_spec (s * 10 ^ e) (10 ^ 21)) as [_|Hge]; [by eexists|].
  pose proof (round_double_ge_1e21 _ _ H Hge). lia.
Qed.

Lemma number_to_string_reparse (x : N) :
  round_double x = Finite x → (x < 10 ^ 21)%N →
  js_parse_component (number_to_string (Finite x)) = Some (Finite x)
  ∧ has_char "." (number_to_string (Finite x)) = false.
Proof.
  intros Hx Hlt. destruct (number_to_string_double x Hx Hlt) as (y & -> & Hy).
  rewrite js_parse_decimal, Hy. split; [done|]. apply digits_no_dot.
Qed.

Lemma js_parse_component_double (s : string) (m : N) :
  js_parse_component s = Some (Finite m) → round_double m = Finite m.
Proof.
  unfold js_parse_component. destruct (NilZero.uint_of_string s); [|done].
  intros [= H]. by apply (round_double_idem (N.of_uint u)).
Qed.

Lemma component_reparse (s : string) (x : number) :
  js_parse_component s = Some x → (∃ m, x = Finite m ∧ (m < 10 ^ 21)%N) →
  js_parse_component (number_to_string x) = Some x ∧ has_char "." (number_to_string x) = false.
Proof.
  intros Hs (m & -> & Hm). apply number_to_string_reparse; [|done].
  by eapply js_parse_component_double.
Qed.

(** C21: for Numbers the label round-trips: whenever every parsed
    component is below 10^21 (2^53 and beyond included, where the digits
    printed are not the digits read), the label without its "v" parses
    back to the same Numbers, so a version taken from a release's label
    rebuilds that release's version array. *)
Theorem js_label_roundtrip (raw : string) (w : list number) :
  js_parseVersionString raw = inr w →
  Forall (λ x, ∃ m, x = Finite m ∧ (m < 10 ^ 21)%N) w →
  ∃ rest, js_versionLabel w = String "v" rest ∧ js_parseVersionString rest = inr w.
Proof.
  unfold js_parseVersionString at 1. destruct (split_on "." raw) as [|a [|b [|c [|]]]]; try done.
  destruct (js_parse_component a) as [x|] eqn:Ha, (js_parse_component b) as [y|] eqn:Hb,
    (js_parse_component c) as [z|] eqn:Hc; try done.
  intros [= <-] Hw. apply Forall_cons in Hw as [Hx Hw]. apply Forall_cons in Hw as [Hy Hw].
  apply Forall_cons in Hw as [Hz _].
  destruct (component_reparse _ _ Ha Hx) as [Hx1 Hx2], (component_reparse _ _ Hb Hy) as [Hy1 Hy2],
    (component_reparse _ _ Hc Hz) as [Hz1 Hz2].
  eexists. split; [reflexivity|]. unfold js_parseVersionString.
  rewrite split_on_join; [|done | by repeat constructor]. cbn [map].
  by rewrite Hx1, Hy1, Hz1.
Qed.

Lemma js_label_roundtrip_witness :
  js_parseVersionString "9007199254740993.0.0"
    = inr [Finite 9007199254740992; Finite 0; Finite 0]
  ∧ ∃ rest, js_versionLabel [Finite 9007199254740992; Finite 0; Finite 0] = String "v" rest
      ∧ js_parseVersionString rest = inr [Finite 9007199254740992; Finite 0; Finite 0].
Proof.
  assert (js_parseVersionString "9007199254740993.0.0"
          = inr [Finite 9007199254740992; Finite 0; Finite 0]) as Hp by (vm_compute; reflexivity).
  split; [exact Hp|]. apply (js_label_roundtrip _ _ Hp).
  repeat constructor; eexists; (split; [reflexivity | vm_compute; reflexivity]).
Defined.
