(* ===== verification/NodePath.v ===== *)
(** * NodePath: Node's [path.join] on POSIX

    build.ts builds two kinds of paths with [path.join] of [node:path]:
    the live development-pack directories (line 126-127,
    [path.join(devBpDir, "<slug>-bp-dev")]) and the archive base name
    (line 136, [path.join(targetPathPrefix, "<slug>-<label>")]).  Node is not
    part of the repository; [Module posix] follows the algorithm of Node's
    [path.posix.join], [normalize] and [normalizeString]: join the non-empty
    arguments with "/", then normalise the pieces between the slashes,
    dropping empty and "." pieces, resolving ".." against the previous
    piece (kept above the root only for relative paths), and restoring the
    leading and trailing slash.

    The theorems give what the target plan needs: a path of plain pieces is
    already normal, so joining it with a plain name is concatenation with
    "/"; and whatever the base directory, the joined path ends with the
    name joined.  [normalize_idempotent] shows that [normalize] returns a
    normal form (the pieces it keeps are some ".." then plain pieces), and
    [join_normal] that the result of [join] is one. *)

From stdpp Require Import base list strings.
From Stdlib Require Import Ascii.
From S2P Require Import Prelude.

Local Open Scope build_scope.

Module posix.

(** One step of [normalizeString]'s loop, at the end of a piece [seg];
    [stack] holds the pieces kept so far, the last one first. *)
Definition normalize_step (allowAboveRoot : bool) (stack : list string) (seg : string)
    : list string :=
  if decide (seg = "") then stack
  else if decide (seg = ".") then stack
  else if decide (seg = "..") then
    match stack with
    | top :: rest =>
        if decide (top = "..") then (if allowAboveRoot then ".." :: stack else stack)
        else rest
    | [] => if allowAboveRoot then [".."] else []
    end
  else seg :: stack.

(** [normalizeString(path, allowAboveRoot, "/", isPosixPathSeparator)] *)
Definition normalizeString (path : string) (allowAboveRoot : bool) : string :=
  String.concat "/"
    (rev (fold_left (normalize_step allowAboveRoot) (split_on "/" path) [])).

Definition starts_with_slash (s : string) : bool :=
  match s with
  | String a _ => bool_decide (a = "/"%char)
  | EmptyString => false
  end.

Fixpoint ends_with_slash (s : string) : bool :=
  match s with
  | EmptyString => false
  | String a EmptyString => bool_decide (a = "/"%char)
  | String _ s' => ends_with_slash s'
  end.

(** [path.posix.normalize(path)] *)
Definition normalize (path : string) : string :=
  if decide (path = "") then "."
  else
    let isAbsolute := starts_with_slash path in
    let trailingSeparator := ends_with_slash path in
    let p := normalizeString path (negb isAbsolute) in
    if decide (p = "") then
      (if isAbsolute then "/" else if trailingSeparator then "./" else ".")
    else
      let p' := if trailingSeparator then p +:+ "/" else p in
      if isAbsolute then "/" +:+ p' else p'.

(** [path.posix.join(...args)]: the non-empty arguments joined by "/",
    normalised; "." when there is none. *)
Definition join (args : list string) : string :=
  match filter (λ a, a ≠ "") args with
  | [] => "."
  | nonempty => normalize (String.concat "/" nonempty)
  end.

End posix.

(** ** Plain pieces *)

(** A piece that normalisation keeps as it is. *)
Definition plain_segment (seg : string) : bool :=
  bool_decide (seg ≠ "" ∧ seg ≠ "." ∧ seg ≠ ".." ∧ has_char "/" seg = false).

(** A relative path whose pieces are all plain. *)
Definition plain_path (p : string) : bool := forallb plain_segment (split_on "/" p).

(** The pieces [normalizeString] keeps, in path order: a run of ".."
    (only when the path may go above its root) and then plain pieces. *)
Definition normal_pieces (allow : bool) (l : list string) : Prop :=
  ∃ k rest, l = replicate k ".." ++ rest
    ∧ Forall (λ x, plain_segment x = true) rest
    ∧ (allow = false → k = 0).

Lemma normalize_step_plain (allow : bool) (stack : list string) (seg : string) :
  plain_segment seg = true → posix.normalize_step allow stack seg = seg :: stack.
Proof.
  unfold plain_segment, posix.normalize_step. rewrite bool_decide_eq_true.
  intros (? & ? & ? & _). by repeat case_decide.
Qed.

Lemma fold_normalize_plain (allow : bool) (segs stack : list string) :
  forallb plain_segment segs = true →
  fold_left (posix.normalize_step allow) segs stack = rev segs ++ stack.
Proof.
  revert stack. induction segs as [|seg segs IH]; intros stack H; [done|].
  apply andb_prop in H as [Hs Hr]. simpl. rewrite normalize_step_plain, IH by done.
  by rewrite <- app_assoc.
Qed.

Lemma plain_segment_nonempty (seg : string) : plain_segment seg = true → seg ≠ "".
Proof. unfold plain_segment. rewrite bool_decide_eq_true. naive_solver. Qed.

Lemma plain_segment_no_slash (seg : string) :
  plain_segment seg = true → has_char "/" seg = false.
Proof. unfold plain_segment. rewrite bool_decide_eq_true. naive_solver. Qed.

Lemma ends_with_slash_append (s t : string) :
  t ≠ "" → posix.ends_with_slash (s +:+ t) = posix.ends_with_slash t.
Proof.
  intros Ht. induction s as [|a s IH]; [done|].
  rewrite append_String. simpl. rewrite IH. destruct (s +:+ t) eqn:E; [|done].
  destruct s, t; done.
Qed.

Lemma ends_with_slash_no_char (s : string) :
  has_char "/" s = false → posix.ends_with_slash s = false.
Proof.
  induction s as [|a s IH]; [done|]. simpl. case_decide; [done|]. intros Hs.
  destruct s as [|b s']; [by apply bool_decide_eq_false | by apply IH].
Qed.

Lemma ends_with_slash_split (s : string) :
  posix.ends_with_slash s = true → ∃ q, s = q +:+ "/".
Proof.
  induction s as [|a s IH]; [done|]. intros H.
  destruct s as [|b s'].
  - apply bool_decide_eq_true in H as ->. by exists "".
  - destruct (IH H) as [q Hq]. exists (String a q). by rewrite append_String, <- Hq.
Qed.

Lemma split_on_slash_cons (s : string) : split_on "/" (String "/" s) = "" :: split_on "/" s.
Proof. reflexivity. Qed.

(** A plain path is relative and has no trailing slash. *)
Lemma plain_path_shape (p : string) :
  plain_path p = true →
  posix.starts_with_slash p = false ∧ posix.ends_with_slash p = false.
Proof.
  unfold plain_path. intros H. split.
  - destruct p as [|a p]; [done|]. destruct (decide (a = "/"%char)) as [->|Ha].
    + by rewrite split_on_slash_cons in H.
    + by apply bool_decide_eq_false.
  - destruct (posix.ends_with_slash p) eqn:E; [|done].
    destruct (ends_with_slash_split p E) as [q ->].
    rewrite split_on_app_sep, forallb_app in H. by apply andb_prop in H as [_ [? _]%andb_prop].
Qed.

(** A non-empty path of plain pieces is its own normal form. *)
Lemma normalize_plain (p : string) :
  p ≠ "" → plain_path p = true → posix.normalize p = p.
Proof.
  intros Hne Hp. destruct (plain_path_shape p Hp) as [Hs He].
  unfold posix.normalize, posix.normalizeString.
  rewrite Hs, He, fold_normalize_plain by done. simpl.
  rewrite app_nil_r, rev_involutive, join_split_on. by repeat case_decide.
Qed.

Lemma plain_path_join (p s : string) :
  plain_path p = true → plain_segment s = true → plain_path (p </> s) = true.
Proof.
  unfold plain_path. intros Hp Hs.
  rewrite append_String, append_empty_l, split_on_app_sep, forallb_app, Hp.
  rewrite split_on_no_char by (by apply plain_segment_no_slash). simpl. by rewrite Hs.
Qed.

(** [path.join(p, s)] of a plain relative path and a plain name is
    ["${p}/${s}"]. *)
Lemma join_plain (p s : string) :
  p ≠ "" → plain_path p = true → plain_segment s = true → posix.join [p; s] = p </> s.
Proof.
  intros Hp Hpp Hs. pose proof (plain_segment_nonempty s Hs).
  unfold posix.join. rewrite !filter_cons_True, filter_nil by done.
  rewrite join_cons_cons. cbn [String.concat].
  apply normalize_plain; [by destruct p | by apply plain_path_join].
Qed.

(** The stack of [normalizeString] only holds pieces without a slash. *)
Lemma fold_normalize_no_slash (allow : bool) (segs stack : list string) :
  Forall (λ x, has_char "/" x = false) segs →
  Forall (λ x, has_char "/" x = false) stack →
  Forall (λ x, has_char "/" x = false) (fold_left (posix.normalize_step allow) segs stack).
Proof.
  revert stack. induction segs as [|seg segs IH]; intros stack Hsegs Hst; [done|].
  inversion Hsegs as [|? ? Hseg Hrest]; subst. simpl. apply IH; [done|].
  unfold posix.normalize_step.
  repeat case_decide; try done; try by constructor.
  destruct stack as [|top rest]; [destruct allow; repeat constructor|].
  inversion Hst; subst. repeat case_decide; destruct allow; try done; by constructor.
Qed.

Lemma join_snoc_nonempty (l : list string) (s : string) :
  s ≠ "" → String.concat "/" (l ++ [s]) ≠ "".
Proof.
  intros Hs. destruct l as [|x l]; [done|].
  destruct (l ++ [s]) as [|y l'] eqn:E; [by destruct l|].
  cbn [app]. rewrite E, join_cons_cons. by destruct x.
Qed.

Lemma starts_with_slash_append (d t : string) :
  d ≠ "" → posix.starts_with_slash (d +:+ t) = posix.starts_with_slash d.
Proof. destruct d; [done|]. reflexivity. Qed.

Lemma ends_with_slash_cons (a : ascii) (s : string) :
  s ≠ "" → posix.ends_with_slash (String a s) = posix.ends_with_slash s.
Proof. destruct s; done. Qed.

(** The normal form of [d/s], for a plain name [s]: the pieces kept from
    [d], then [s], behind a slash when [d] is absolute. *)
Lemma normalize_snoc_plain (d s : string) :
  d ≠ "" → plain_segment s = true →
  let st := fold_left (posix.normalize_step (negb (posix.starts_with_slash d)))
              (split_on "/" d) [] in
  posix.normalize (d </> s)
  = (if posix.starts_with_slash d then "/" else "") +:+ String.concat "/" (rev st ++ [s]).
Proof.
  intros Hd Hs st. pose proof (plain_segment_nonempty s Hs) as Hne.
  pose proof (plain_segment_no_slash s Hs) as Hns.
  rewrite append_String, append_empty_l.
  unfold posix.normalize, posix.normalizeString.
  rewrite starts_with_slash_append, ends_with_slash_append, ends_with_slash_cons,
    ends_with_slash_no_char by done.
  rewrite split_on_app_sep, (split_on_no_char _ s), fold_left_app by done.
  cbn [fold_left]. rewrite normalize_step_plain by done. fold st. cbn [rev].
  pose proof (join_snoc_nonempty (rev st) s Hne).
  case_decide as Hz; [by destruct d|].
  case_decide; [done|]. clearbody st. by destruct (posix.starts_with_slash d).
Qed.

(** Whatever the directory [d], [path.join(d, s)] of a plain name [s]
    ends with the piece [s]. *)
Lemma join_last_segment (d s : string) :
  plain_segment s = true → last (split_on "/" (posix.join [d; s])) = Some s.
Proof.
  intros Hs. pose proof (plain_segment_nonempty s Hs) as Hne.
  pose proof (plain_segment_no_slash s Hs) as Hns.
  unfold posix.join. destruct (decide (d = "")) as [->|Hd].
  - rewrite filter_cons_False by naive_solver. rewrite filter_cons_True, filter_nil by done.
    cbn [String.concat]. rewrite normalize_plain; [|done|].
    + by rewrite split_on_no_char.
    + unfold plain_path. rewrite split_on_no_char by done. simpl. by rewrite Hs.
  - rewrite !filter_cons_True, filter_nil by done. rewrite join_cons_cons.
    cbn [String.concat]. rewrite normalize_snoc_plain by done.
    set (st := fold_left _ _ []).
    assert (split_on "/" (String.concat "/" (rev st ++ [s])) = rev st ++ [s]) as Hsp.
    { apply split_on_join; [by destruct (rev st)|].
      apply Forall_app; split; [|by constructor].
      apply Forall_rev, fold_normalize_no_slash; [apply split_on_pieces | constructor]. }
    destruct (posix.starts_with_slash d).
    + rewrite append_String, append_empty_l, split_on_slash_cons, Hsp.
      by rewrite app_comm_cons, last_snoc.
    + by rewrite append_empty_l, Hsp, last_snoc.
Qed.

(** ** The normal form kept by [normalizeString] *)

Lemma rev_replicate_eq {A} (k : nat) (x : A) : rev (replicate k x) = replicate k x.
Proof.
  induction k as [|k IH]; [done|].
  rewrite replicate_S_end at 2. simpl. by rewrite IH.
Qed.

Lemma snoc_replicate {A} (l : list A) (x a : A) (k : nat) :
  l ++ [x] = replicate k a → x = a.
Proof.
  intros H. assert (x ∈ l ++ [x]) as Hx.
  { apply list_elem_of_In, in_or_app. right. by left. }
  rewrite H in Hx. by apply elem_of_replicate in Hx as [-> _].
Qed.

Lemma normalize_step_empty (allow : bool) (st : list string) :
  posix.normalize_step allow st "" = st.
Proof. unfold posix.normalize_step. by case_decide. Qed.

(** The last piece of a normal stack that is not a run of "..". *)
Lemma normal_pieces_snoc (allow : bool) (l : list string) (x : string) :
  normal_pieces allow (l ++ [x]) →
  (x = ".." ∧ l = replicate (length l) ".." ∧ allow = true)
  ∨ (plain_segment x = true ∧ normal_pieces allow l).
Proof.
  intros (k & rest & Hl & Hrest & Hk).
  destruct rest as [|y rest'] using rev_ind.
  - rewrite app_nil_r in Hl. pose proof (snoc_replicate _ _ _ _ Hl) as ->.
    left. split; [done|]. destruct k as [|k]; [by destruct l|].
    rewrite replicate_S_end in Hl. apply app_inj_tail in Hl as [Hl _].
    split; [by rewrite Hl, length_replicate|]. destruct allow; [done|]. by specialize (Hk eq_refl).
  - rewrite app_assoc in Hl. apply app_inj_tail in Hl as [Hl <-].
    apply Forall_app in Hrest as [Hrest' Hx]. inversion Hx as [|? ? Hy]; subst.
    right. split; [done|]. by exists k, rest'.
Qed.

Lemma plain_segment_dotdot : plain_segment ".." = false.
Proof. reflexivity. Qed.

(** One step of [normalizeString] keeps the stack normal. *)
Lemma normal_pieces_step (allow : bool) (st : list string) (seg : string) :
  has_char "/" seg = false → normal_pieces allow (rev st) →
  normal_pieces allow (rev (posix.normalize_step allow st seg)).
Proof.
  intros Hseg Hst. unfold posix.normalize_step.
  case_decide as H1; [done|]. case_decide as H2; [done|].
  case_decide as H3.
  - destruct st as [|top st'].
    + destruct allow; [by exists 1, [] | by exists 0, []].
    + simpl in Hst. case_decide as H4; subst.
      * destruct allow; [|done].
        destruct (normal_pieces_snoc _ _ _ Hst) as [(_ & Hr & _)|[? _]]; [|done].
        set (n := length (rev st')) in *. exists (S (S n)), [].
        split_and!; [|constructor|done]. simpl. rewrite Hr, app_nil_r.
        by rewrite <- !replicate_S_end.
      * by destruct (normal_pieces_snoc _ _ _ Hst) as [(? & _)|[_ ?]].
  - destruct Hst as (k & rest & Hl & Hrest & Hk). exists k, (rest ++ [seg]). simpl.
    split_and!; [by rewrite Hl, app_assoc | | done].
    apply Forall_app. split; [done|]. constructor; [|done].
    unfold plain_segment. by apply bool_decide_eq_true.
Qed.

Lemma normal_pieces_fold (allow : bool) (segs st : list string) :
  Forall (λ x, has_char "/" x = false) segs → normal_pieces allow (rev st) →
  normal_pieces allow (rev (fold_left (posix.normalize_step allow) segs st)).
Proof.
  revert st. induction segs as [|seg segs IH]; intros st Hsegs Hst; [done|].
  inversion Hsegs; subst. simpl. apply IH; [done|]. by apply normal_pieces_step.
Qed.

(** Pushing ".." onto a stack that is empty or has ".." on top. *)
Lemma fold_dotdots (j : nat) (st : list string) :
  (st = [] ∨ ∃ st', st = ".." :: st') →
  fold_left (posix.normalize_step true) (replicate j "..") st = replicate j ".." ++ st.
Proof.
  revert st. induction j as [|j IH]; intros st Hst; [done|]. simpl.
  assert (posix.normalize_step true st ".." = ".." :: st) as ->.
  { unfold posix.normalize_step. case_decide; [done|]. case_decide; [done|].
    case_decide; [|done]. destruct Hst as [->|[st' ->]]; [done|]. by case_decide. }
  rewrite IH by eauto. change (".." :: st) with ([".."] ++ st).
  by rewrite app_assoc, <- replicate_S_end.
Qed.

(** Normalising a path whose pieces are already normal keeps them. *)
Lemma fold_normal_pieces (allow : bool) (l : list string) :
  normal_pieces allow l → fold_left (posix.normalize_step allow) l [] = rev l.
Proof.
  intros (k & rest & -> & Hrest & Hk). rewrite fold_left_app.
  assert (fold_left (posix.normalize_step allow) (replicate k "..") [] = replicate k "..")
    as ->.
  { destruct allow; [|by rewrite (Hk eq_refl)].
    rewrite fold_dotdots by auto. apply app_nil_r. }
  rewrite fold_normalize_plain by (by apply forallb_Forall).
  by rewrite rev_app_distr, rev_replicate_eq.
Qed.

Lemma normal_pieces_nil (allow : bool) : normal_pieces allow (rev []).
Proof. by exists 0, []. Qed.

Lemma normal_pieces_ok (allow : bool) (l : list string) :
  normal_pieces allow l → Forall (λ x, x ≠ "" ∧ has_char "/" x = false) l.
Proof.
  intros (k & rest & -> & Hrest & _). apply Forall_app. split.
  - apply Forall_replicate. done.
  - eapply Forall_impl; [done|]. intros x Hx.
    split; [by apply plain_segment_nonempty | by apply plain_segment_no_slash].
Qed.

Lemma starts_with_slash_no_char (x : string) :
  x ≠ "" → has_char "/" x = false → posix.starts_with_slash x = false.
Proof.
  destruct x as [|a x]; [done|]. intros _. simpl. case_decide; [done|].
  intros _. by apply bool_decide_eq_false.
Qed.

Lemma starts_with_slash_join (x : string) (l : list string) :
  x ≠ "" → has_char "/" x = false → posix.starts_with_slash (join "/" (x :: l)) = false.
Proof.
  intros Hx Hs. destruct (join_cons_prefix "/" x l) as [r ->].
  rewrite starts_with_slash_append by done. by apply starts_with_slash_no_char.
Qed.

Lemma ends_with_slash_join (l : list string) (x : string) :
  x ≠ "" → has_char "/" x = false → posix.ends_with_slash (join "/" (l ++ [x])) = false.
Proof.
  intros Hx Hs. destruct l as [|y l]; [by apply ends_with_slash_no_char|].
  rewrite join_snoc by done. rewrite ends_with_slash_append by done.
  rewrite append_String, append_empty_l, ends_with_slash_cons by done.
  by apply ends_with_slash_no_char.
Qed.

Lemma fold_skip_empty (allow : bool) (l st : list string) :
  fold_left (posix.normalize_step allow) ("" :: l) st
  = fold_left (posix.normalize_step allow) l st.
Proof. simpl. by rewrite normalize_step_empty. Qed.

(** ** The pieces a path keeps *)

(** The stack [normalizeString] builds from a path, the last piece first. *)
Definition pieces (allow : bool) (p : string) : list string :=
  fold_left (posix.normalize_step allow) (split_on "/" p) [].

(** A path in the shape [normalize] prints: an optional leading slash, a
    body, an optional trailing slash. *)
Definition framed (abs tr : bool) (body : string) : string :=
  (if abs then "/" else "") +:+ body +:+ (if tr then "/" else "").

Lemma pieces_app (allow : bool) (d s : string) :
  pieces allow (d +:+ String "/" s)
  = fold_left (posix.normalize_step allow) (split_on "/" s) (pieces allow d).
Proof. unfold pieces. by rewrite split_on_app_sep, fold_left_app. Qed.

Section Framed.
Context (abs tr : bool) (l : list string).
Hypothesis Hn : normal_pieces (negb abs) l.
Hypothesis Hbody : join "/" l ≠ "".

Lemma framed_nonnil : l ≠ [].
Proof. by intros ->. Qed.

Lemma framed_starts : posix.starts_with_slash (framed abs tr (join "/" l)) = abs.
Proof.
  pose proof (normal_pieces_ok _ _ Hn) as Hok. unfold framed.
  destruct abs; [reflexivity|]. rewrite append_empty_l, starts_with_slash_append by done.
  destruct l as [|x l']; [done|]. inversion Hok as [|? ? [Hx Hxs] _]; subst.
  by apply starts_with_slash_join.
Qed.

Lemma framed_ends : posix.ends_with_slash (framed abs tr (join "/" l)) = tr.
Proof.
  pose proof (normal_pieces_ok _ _ Hn) as Hok. pose proof framed_nonnil as Hl.
  unfold framed. destruct tr.
  - rewrite <- append_assoc, ends_with_slash_append by done. reflexivity.
  - rewrite append_empty_r. destruct abs; [rewrite append_String, append_empty_l,
      ends_with_slash_cons by done | rewrite append_empty_l].
    all: destruct (exists_last Hl) as (l' & x & Hlx); rewrite Hlx in Hok |- *;
      apply Forall_app in Hok as [_ Hx]; inversion Hx as [|? ? [Hx1 Hx2] _]; subst;
      by apply ends_with_slash_join.
Qed.

Lemma framed_pieces : pieces (negb abs) (framed abs tr (join "/" l)) = rev l.
Proof.
  pose proof (normal_pieces_ok _ _ Hn) as Hok. pose proof framed_nonnil as Hl.
  unfold pieces, framed.
  assert (split_on "/" ((if abs then "/" else "") +:+ join "/" l +:+ (if tr then "/" else ""))
          = (if abs then [""] else []) ++ l ++ (if tr then [""] else [])) as ->.
  { assert (split_on "/" (join "/" l) = l) as Hb.
    { apply split_on_join; [done|]. eapply Forall_impl; [done|].
      by intros x [_ ?]. }
    destruct abs, tr; rewrite ?append_String, ?append_empty_l, ?append_empty_r;
      rewrite ?split_on_slash_cons;
      rewrite ?(split_on_app_sep "/" (join "/" l) ""), ?Hb, ?app_nil_r; done. }
  rewrite app_assoc, fold_left_app.
  assert (fold_left (posix.normalize_step (negb abs)) ((if abs then [""] else []) ++ l) []
          = rev l) as ->.
  { destruct abs; cbn [app]; [rewrite fold_skip_empty|]; by apply fold_normal_pieces. }
  destruct tr; simpl; by rewrite ?normalize_step_empty.
Qed.

End Framed.

(** [normalize] through the leading slash, the trailing slash and the
    pieces of a non-empty path. *)
Lemma normalize_cases (p : string) :
  p ≠ "" →
  let abs := posix.starts_with_slash p in
  let tr := posix.ends_with_slash p in
  let l := rev (pieces (negb abs) p) in
  posix.normalize p =
    if decide (join "/" l = "") then (if abs then "/" else if tr then "./" else ".")
    else framed abs tr (join "/" l).
Proof.
  intros Hp. unfold posix.normalize, posix.normalizeString, framed, pieces. cbv zeta.
  case_decide; [done|]. destruct (decide _); [done|].
  destruct (posix.starts_with_slash p), (posix.ends_with_slash p);
    by rewrite ?append_empty_r, ?append_empty_l, ?append_String.
Qed.

(** The pieces a path keeps are normal. *)
Lemma pieces_normal (p : string) :
  normal_pieces (negb (posix.starts_with_slash p))
    (rev (pieces (negb (posix.starts_with_slash p)) p)).
Proof. apply normal_pieces_fold; [apply split_on_pieces | apply normal_pieces_nil]. Qed.

Lemma join_nil_pieces (l : list string) :
  Forall (λ x, x ≠ "" ∧ has_char "/" x = false) l → join "/" l = "" → l = [].
Proof.
  intros Hok Hz. destruct l as [|x l']; [done|]. exfalso.
  inversion Hok as [|? ? [Hx _] _]; subst. destruct (join_cons_prefix "/" x l') as [r Hr].
  rewrite Hr in Hz. by destruct x.
Qed.

(** The normal form of a path normal from its pieces. *)
Lemma normalize_pieces (abs tr : bool) (l : list string) :
  normal_pieces (negb abs) l → join "/" l ≠ "" →
  posix.normalize (framed abs tr (join "/" l)) = framed abs tr (join "/" l).
Proof.
  intros Hn Hbody.
  assert (framed abs tr (join "/" l) ≠ "") as Hne by (unfold framed; by destruct abs, (join "/" l)).
  rewrite (normalize_cases _ Hne). cbv zeta.
  rewrite framed_starts, framed_ends, framed_pieces, rev_involutive by done.
  by destruct (decide _).
Qed.

(** [path.posix.normalize] is idempotent: a normalised path is normal. *)
Lemma normalize_idempotent (p : string) :
  posix.normalize (posix.normalize p) = posix.normalize p.
Proof.
  destruct (decide (p = "")) as [->|Hp]; [reflexivity|].
  rewrite (normalize_cases p Hp). cbv zeta. pose proof (pieces_normal p) as Hn. revert Hn.
  generalize (rev (pieces (negb (posix.starts_with_slash p)) p)) as l.
  intros l Hn. destruct (decide (join "/" l = "")) as [Hz|Hz].
  - by destruct (posix.starts_with_slash p), (posix.ends_with_slash p).
  - by apply normalize_pieces.
Qed.

(** [path.join] always returns a normal path. *)
Lemma join_normal (args : list string) : posix.normalize (posix.join args) = posix.join args.
Proof.
  unfold posix.join. destruct (filter _ args); [reflexivity|]. apply normalize_idempotent.
Qed.

(** ** Paths that name the same directory *)

(** What [normalize] keeps of a path apart from its trailing slash: whether
    it is absolute, and the pieces it keeps. *)
Definition dir_key (p : string) : bool * list string :=
  (posix.starts_with_slash p, pieces (negb (posix.starts_with_slash p)) p).

(** Two spellings of one directory, e.g. ["/a/b"], ["/a/./b/"] and
    ["/a/c/../b"]. *)
Definition path_equiv (p q : string) : Prop := dir_key p = dir_key q.

#[export] Instance path_equiv_equivalence : Equivalence path_equiv.
Proof. unfold path_equiv. split; [done | by intros ?? | by intros ??? -> ->]. Qed.

#[export] Instance path_equiv_dec : RelDecision path_equiv.
Proof. intros p q. unfold path_equiv. apply _. Defined.

(** [normalize] of a non-empty path is a function of its key and of its
    trailing slash. *)
Lemma normalize_by_key (x y : string) :
  x ≠ "" → y ≠ "" → dir_key x = dir_key y →
  posix.ends_with_slash x = posix.ends_with_slash y →
  posix.normalize x = posix.normalize y.
Proof.
  intros Hx Hy Hk He. unfold dir_key in Hk. injection Hk as Hs Hp.
  rewrite (normalize_cases x Hx), (normalize_cases y Hy). cbv zeta. by rewrite Hp, Hs, He.
Qed.

Lemma dir_key_framed (abs tr : bool) (l : list string) :
  normal_pieces (negb abs) l →
  dir_key (if decide (join "/" l = "") then (if abs then "/" else if tr then "./" else ".")
           else framed abs tr (join "/" l)) = (abs, rev l).
Proof.
  intros Hn. destruct (decide _) as [Hz|Hz].
  - rewrite (join_nil_pieces l (normal_pieces_ok _ _ Hn) Hz). by destruct abs, tr.
  - unfold dir_key. by rewrite framed_starts, framed_pieces.
Qed.

(** Normalising a path does not change the directory it names. *)
Lemma dir_key_normalize (p : string) : dir_key (posix.normalize p) = dir_key p.
Proof.
  destruct (decide (p = "")) as [->|Hp]; [reflexivity|].
  rewrite (normalize_cases p Hp). cbv zeta. rewrite dir_key_framed by apply pieces_normal.
  unfold dir_key. by rewrite rev_involutive.
Qed.

(** Paths with one normal form name one directory. *)
Lemma normalize_path_equiv (p q : string) :
  posix.normalize p = posix.normalize q → path_equiv p q.
Proof.
  intros H. unfold path_equiv. by rewrite <- (dir_key_normalize p), H, dir_key_normalize.
Qed.

(** [join [d; s]] for a non-empty [s]: the path [normalize] receives. *)
Lemma join_pair (d s : string) :
  s ≠ "" → posix.join [d; s] = posix.normalize (if decide (d = "") then s else d +:+ String "/" s).
Proof.
  intros Hs. unfold posix.join. rewrite filter_cons, (filter_cons_True _ s), filter_nil by done.
  destruct (decide (d = "")); case_decide; done.
Qed.

Lemma join_pair_key (d s : string) :
  s ≠ "" → posix.starts_with_slash s = false →
  let x := if decide (d = "") then s else d +:+ String "/" s in
  x ≠ "" ∧ posix.ends_with_slash x = posix.ends_with_slash s
  ∧ dir_key x = (fst (dir_key d),
      fold_left (posix.normalize_step (negb (fst (dir_key d)))) (split_on "/" s) (snd (dir_key d))).
Proof.
  intros Hs Hrel. cbv zeta. destruct (decide (d = "")) as [->|Hd].
  - unfold dir_key. by rewrite Hrel.
  - split_and!; [by destruct d | |].
    + by rewrite ends_with_slash_append, ends_with_slash_cons.
    + unfold dir_key. by rewrite starts_with_slash_append, pieces_app.
Qed.

Section JoinName.
Context (s : string).
Hypothesis Hs : s ≠ "".
Hypothesis Hrel : posix.starts_with_slash s = false.

(** Joining a relative name under a directory depends on the directory only
    through the directory it names. *)
Lemma join_dir_proper : Proper (path_equiv ==> eq) (λ d, posix.join [d; s]).
Proof.
  intros d1 d2 Hd. unfold path_equiv in Hd. rewrite !join_pair by done.
  destruct (join_pair_key d1 s Hs Hrel) as (Hx1 & He1 & Hk1).
  destruct (join_pair_key d2 s Hs Hrel) as (Hx2 & He2 & Hk2).
  apply normalize_by_key; [done | done | by rewrite Hk1, Hk2, Hd | by rewrite He1, He2].
Qed.

End JoinName.

(** Joining a plain name under a directory names the child of that
    directory: the pieces of the directory with the name pushed on top. *)
Lemma join_child (d s : string) :
  plain_segment s = true →
  dir_key (posix.join [d; s]) = (fst (dir_key d), s :: snd (dir_key d)).
Proof.
  intros Hs. pose proof (plain_segment_nonempty s Hs) as Hne.
  pose proof (starts_with_slash_no_char s Hne (plain_segment_no_slash s Hs)) as Hrel.
  rewrite join_pair, dir_key_normalize by done.
  destruct (join_pair_key d s Hne Hrel) as (_ & _ & ->).
  rewrite split_on_no_char by by apply plain_segment_no_slash.
  simpl. by rewrite normalize_step_plain.
Qed.

(** Two directories with the same normal form give the same [path.join]
    with a relative name. *)
Lemma join_same_normal_form (d1 d2 s : string) :
  s ≠ "" → posix.starts_with_slash s = false → posix.normalize d1 = posix.normalize d2 →
  posix.join [d1; s] = posix.join [d2; s].
Proof. intros Hs Hr Hn. apply (join_dir_proper s Hs Hr). by apply normalize_path_equiv. Qed.
