(* ===== verification/Manifest.v ===== *)
(** * Manifest: the two manifest documents

    Lines 21-106 of build.ts: the project constants [addonConfig], the
    display name (line 33), the UUID table [uuids] (lines 37-43), and the
    JavaScript object literals [bpManifest] and [rpManifest], modelled as
    JSON values whose objects keep the fields in source order.  The two
    manifests are functions of the two values the script resolves before
    them, the display name and the version array.

    The specification describes a typed manifest document (header, module
    descriptors, dependency descriptors, optional capabilities).  [Spec]
    holds that abstract view and a decoder from JSON into it; the
    refinement theorem says the JSON literals decode to the documents of
    the specification, and the invariants the two documents share are
    proved on the decoded documents. *)

From stdpp Require Import base list strings.
From Stdlib Require Import Ascii.
From S2P Require Import Prelude Version.

(** ** JSON values *)

Inductive json :=
| JNumber (n : nat)
| JString (s : string)
| JBool (b : bool)
| JArray (items : list json)
| JObject (fields : list (string * json)).

(** [obj.key]: the first field with that key. *)
Fixpoint jfield (k : string) (fields : list (string * json)) : option json :=
  match fields with
  | [] => None
  | (k', v) :: rest => if String.eqb k k' then Some v else jfield k rest
  end.

Definition jget (k : string) (j : json) : option json :=
  match j with
  | JObject fields => jfield k fields
  | _ => None
  end.

(** ** Project constants (lines 21-25) *)

Record AddonConfig := {
  name : string;
  slug : string;
  minEngineVersion : list nat;
}.

Definition addonConfig : AddonConfig := {|
  name := "Untitled Add-on";
  slug := "untitled-addon";
  minEngineVersion := [1; 21; 110];
|}.

(** [const displayName = `${addonConfig.name} ${isDev ? "DEV" : versionLabel}`] *)
Definition displayName (isDev : bool) (versionLabel : string) : string :=
  name addonConfig +:+ " " +:+ (if isDev then "DEV" else versionLabel).

(** ** The UUID table (lines 37-43) *)

Record Uuids := {
  bpHeader : string;
  bpDataModule : string;
  bpScriptsModule : string;
  rpHeader : string;
  rpResourcesModule : string;
}.

Definition uuids : Uuids := {|
  bpHeader := "7f519716-66c1-4d1c-9bb5-dee36e2cbb6e";
  bpDataModule := "c30672bb-446a-458f-95ed-3b8a6e17c999";
  bpScriptsModule := "9ca92e58-0e77-4117-a0fb-44484dd1418f";
  rpHeader := "74c625fe-e814-4e85-a845-4018c1741ac5";
  rpResourcesModule := "2f48f6f5-e145-4643-810d-77531a50e249";
|}.

(** ** The manifests (lines 52-106) *)

Definition version_json (versionArray : list nat) : json :=
  JArray (map JNumber versionArray).

Definition bpManifest (displayName : string) (versionArray : list nat) : json :=
  JObject [
    ("format_version", JNumber 2);
    ("header", JObject [
      ("name", JString displayName);
      ("description", JString "No description.");
      ("uuid", JString (bpHeader uuids));
      ("version", version_json versionArray);
      ("min_engine_version", version_json (minEngineVersion addonConfig))]);
    ("modules", JArray [
      JObject [
        ("type", JString "data");
        ("uuid", JString (bpDataModule uuids));
        ("version", version_json versionArray)];
      JObject [
        ("language", JString "javascript");
        ("type", JString "script");
        ("uuid", JString (bpScriptsModule uuids));
        ("version", version_json versionArray);
        ("entry", JString "scripts/index.js")]]);
    ("dependencies", JArray [
      JObject [
        ("uuid", JString (rpHeader uuids));
        ("version", version_json versionArray)];
      JObject [
        ("module_name", JString "@minecraft/server");
        ("version", JString "2.2.0")]])].

Definition rpManifest (displayName : string) (versionArray : list nat) : json :=
  JObject [
    ("format_version", JNumber 2);
    ("header", JObject [
      ("name", JString displayName);
      ("description", JString "No description.");
      ("uuid", JString (rpHeader uuids));
      ("version", version_json versionArray);
      ("min_engine_version", version_json (minEngineVersion addonConfig))]);
    ("modules", JArray [
      JObject [
        ("type", JString "resources");
        ("uuid", JString (rpResourcesModule uuids));
        ("version", version_json versionArray)]]);
    ("capabilities", JArray [JString "pbr"])].

(** ** The specification's typed manifest and the JSON decoder *)

Module Spec.

Record Header := {
  h_name : string;
  h_description : string;
  h_uuid : string;
  h_version : list nat;
  h_min_engine_version : list nat;
}.

Inductive ModuleDescriptor :=
| DataModule (uuid : string) (version : list nat)
| ScriptModule (uuid : string) (version : list nat) (language entry : string)
| ResourcesModule (uuid : string) (version : list nat).

Inductive DependencyDescriptor :=
| CrossModuleLink (uuid : string) (version : list nat)
| PlatformDependency (module_name : string) (version : string).

Record ManifestDocument := {
  format_version : nat;
  header : Header;
  modules : list ModuleDescriptor;
  dependencies : list DependencyDescriptor;
  capabilities : option (list string);
}.

Definition module_uuid (m : ModuleDescriptor) : string :=
  match m with
  | DataModule u _ | ScriptModule u _ _ _ | ResourcesModule u _ => u
  end.

Definition module_version (m : ModuleDescriptor) : list nat :=
  match m with
  | DataModule _ v | ScriptModule _ v _ _ | ResourcesModule _ v => v
  end.

(** The identifiers a document declares: its header and its modules. *)
Definition doc_uuids (d : ManifestDocument) : list string :=
  h_uuid (header d) :: map module_uuid (modules d).

Definition as_nat (j : json) : option nat :=
  match j with JNumber n => Some n | _ => None end.

Definition as_string (j : json) : option string :=
  match j with JString s => Some s | _ => None end.

Definition as_array (j : json) : option (list json) :=
  match j with JArray l => Some l | _ => None end.

Definition as_version (j : json) : option (list nat) := as_array j ≫= mapM as_nat.

Definition as_strings (j : json) : option (list string) := as_array j ≫= mapM as_string.

Definition decode_header (j : json) : option Header :=
  n ← jget "name" j ≫= as_string;
  d ← jget "description" j ≫= as_string;
  u ← jget "uuid" j ≫= as_string;
  v ← jget "version" j ≫= as_version;
  m ← jget "min_engine_version" j ≫= as_version;
  Some {| h_name := n; h_description := d; h_uuid := u; h_version := v;
          h_min_engine_version := m |}.

Definition decode_module (j : json) : option ModuleDescriptor :=
  ty ← jget "type" j ≫= as_string;
  u ← jget "uuid" j ≫= as_string;
  v ← jget "version" j ≫= as_version;
  if String.eqb ty "data" then Some (DataModule u v)
  else if String.eqb ty "script" then
    lang ← jget "language" j ≫= as_string;
    entry ← jget "entry" j ≫= as_string;
    Some (ScriptModule u v lang entry)
  else if String.eqb ty "resources" then Some (ResourcesModule u v)
  else None.

(** A dependency names a pack by [uuid] or a platform module by
    [module_name]. *)
Definition decode_dependency (j : json) : option DependencyDescriptor :=
  match jget "uuid" j with
  | Some ju =>
      u ← as_string ju;
      v ← jget "version" j ≫= as_version;
      Some (CrossModuleLink u v)
  | None =>
      n ← jget "module_name" j ≫= as_string;
      v ← jget "version" j ≫= as_string;
      Some (PlatformDependency n v)
  end.

Definition decode_manifest (j : json) : option ManifestDocument :=
  fv ← jget "format_version" j ≫= as_nat;
  h ← jget "header" j ≫= decode_header;
  ms ← (jget "modules" j ≫= as_array) ≫= mapM decode_module;
  ds ← from_option (λ x, as_array x ≫= mapM decode_dependency)
         (Some ([] : list DependencyDescriptor)) (jget "dependencies" j);
  cs ← from_option (λ x, Some <$> as_strings x)
         (Some (None : option (list string))) (jget "capabilities" j);
  Some {| format_version := fv; header := h; modules := ms; dependencies := ds;
          capabilities := cs |}.

(** The two documents of section 4.4 of the specification. *)
Definition behavior_manifest (displayName : string) (version : list nat)
    : ManifestDocument := {|
  format_version := 2;
  header := {| h_name := displayName; h_description := "No description.";
               h_uuid := bpHeader uuids; h_version := version;
               h_min_engine_version := minEngineVersion addonConfig |};
  modules := [DataModule (bpDataModule uuids) version;
              ScriptModule (bpScriptsModule uuids) version "javascript" "scripts/index.js"];
  dependencies := [CrossModuleLink (rpHeader uuids) version;
                   PlatformDependency "@minecraft/server" "2.2.0"];
  capabilities := None;
|}.

Definition resource_manifest (displayName : string) (version : list nat)
    : ManifestDocument := {|
  format_version := 2;
  header := {| h_name := displayName; h_description := "No description.";
               h_uuid := rpHeader uuids; h_version := version;
               h_min_engine_version := minEngineVersion addonConfig |};
  modules := [ResourcesModule (rpResourcesModule uuids) version];
  dependencies := [];
  capabilities := Some ["pbr"];
|}.

End Spec.

Import Spec.

(** ** Decoding the manifests *)

Lemma as_version_json (v : list nat) : as_version (version_json v) = Some v.
Proof.
  unfold as_version, version_json. simpl.
  induction v as [|n v IH]; [done|]. simpl. by rewrite IH.
Qed.

Lemma decode_bpManifest (dn : string) (v : list nat) :
  decode_manifest (bpManifest dn v) = Some (behavior_manifest dn v).
Proof.
  unfold decode_manifest. cbn -[as_version version_json].
  by rewrite !as_version_json.
Qed.

Lemma decode_rpManifest (dn : string) (v : list nat) :
  decode_manifest (rpManifest dn v) = Some (resource_manifest dn v).
Proof.
  unfold decode_manifest. cbn -[as_version version_json].
  by rewrite !as_version_json.
Qed.

(** ** Properties of the manifests *)

(** C8: the two JSON object literals decode to the behaviour-pack and
    resource-pack documents of the specification: format version 2, the
    shared header fields, the data and script modules and the two
    dependencies of the behaviour pack, the resources module and the
    unconditional "pbr" capability of the resource pack. *)
Theorem manifests_refine_spec (dn : string) (v : list nat) :
  decode_manifest (bpManifest dn v) = Some (behavior_manifest dn v)
  ∧ decode_manifest (rpManifest dn v) = Some (resource_manifest dn v).
Proof. split; [apply decode_bpManifest | apply decode_rpManifest]. Qed.

(** C7: within one build the two manifests never diverge in format
    version, name, header version or minimum engine version, and every
    module carries the build's version. *)
Theorem manifests_share_identity (dn : string) (v : list nat) :
  ∃ b r, decode_manifest (bpManifest dn v) = Some b
    ∧ decode_manifest (rpManifest dn v) = Some r
    ∧ format_version b = format_version r
    ∧ h_name (header b) = h_name (header r)
    ∧ h_version (header b) = v ∧ h_version (header r) = v
    ∧ h_min_engine_version (header b) = h_min_engine_version (header r)
    ∧ Forall (λ m, module_version m = v) (modules b ++ modules r).
Proof.
  eexists _, _. rewrite decode_bpManifest, decode_rpManifest.
  repeat split; repeat constructor.
Qed.

(** C23: the behaviour pack's pack dependency names the resource pack's
    header UUID at the resource pack's version. *)
Theorem cross_link_resolves (dn : string) (v : list nat) :
  ∃ b r, decode_manifest (bpManifest dn v) = Some b
    ∧ decode_manifest (rpManifest dn v) = Some r
    ∧ CrossModuleLink (h_uuid (header r)) (h_version (header r)) ∈ dependencies b.
Proof.
  eexists _, _. rewrite decode_bpManifest, decode_rpManifest.
  repeat split. left.
Qed.

(** C24: in development mode the display name is "Untitled Add-on DEV"
    whatever the version, and it differs from the display name of every
    production build. *)
Theorem displayName_dev_distinct (lbl : string) (v : list nat) :
  displayName true lbl = "Untitled Add-on DEV"
  ∧ displayName true lbl ≠ displayName false (versionLabel v).
Proof.
  unfold displayName, versionLabel. cbn [name addonConfig]. strs_simpl.
  split; [reflexivity | discriminate].
Qed.


