(* ===== verification/Build.v ===== *)
(** * Build: the configuration object and the whole script

    Lines 145-167 of build.ts: the [ConfigInput] object handed to
    [builder.build], and the script from its first line as one [EnvM]
    computation, [buildConfig], composed the way the script runs: the mode
    flags, the version, the display name and manifests, the target plan,
    then the configuration.  An error anywhere aborts the script before
    [builder.build] is called.

    [builder.build] itself is external.  [Orchestrator] is the contract the
    script relies on (section 4.6 of the specification): a build cycle
    writes the behaviour manifest into every behaviour output directory and
    the resource manifest into every resource output directory, and writes
    every archive requested.  The end-to-end theorems are proved against
    that class; [FsOrchestrator] is an instance, a file system of manifests,
    bundles and archives that discharges the laws.  The bundler writes the
    bundle of the script entry at [bundle_output]: the entry's path under
    the source directory with [.js] for [.ts].  Of watch mode the
    script decides only the flag [watch] (line 162), which [config_spec]
    pins to [Boolean(WATCH)]; the watcher is the builder's.  The
    configuration is the same for environments that spell the live-pack
    directories differently, through the [Proper] instance
    [targetPlan_proper]. *)

From stdpp Require Import base list strings gmap.
From Stdlib Require Import Ascii.
From S2P Require Import Prelude Env Version NodePath Manifest Targets.

Import Spec.
Local Open Scope build_scope.

(** ** The configuration object (lines 145-165) *)

Record ScriptsOptions := {
  entry : string;
  bundle : bool;
  sourceMap : bool;
}.

Record BehaviorPackOptions := {
  bp_srcDir : string;
  bp_targetDir : list string;
  bp_manifest : json;
  scripts : ScriptsOptions;
}.

Record ResourcePackOptions := {
  rp_srcDir : string;
  rp_targetDir : list string;
  rp_manifest : json;
  generateTextureList : bool;
}.

Record ConfigInput := {
  behaviorPack : BehaviorPackOptions;
  resourcePack : ResourcePackOptions;
  watch : bool;
  archive : list ArchiveOptions;
}.

(** [const config: builder.ConfigInput = { ... }] *)
Definition config (isDev shouldWatch : bool) (bpManifest rpManifest : json)
    (plan : TargetPlan) : ConfigInput := {|
  behaviorPack := {|
    bp_srcDir := "src/bp";
    bp_targetDir := bpTargetDirs plan;
    bp_manifest := bpManifest;
    scripts := {| entry := "src/bp/scripts/index.ts"; bundle := true;
                  sourceMap := isDev |} |};
  resourcePack := {|
    rp_srcDir := "src/rp";
    rp_targetDir := rpTargetDirs plan;
    rp_manifest := rpManifest;
    generateTextureList := true |};
  watch := shouldWatch;
  archive := archiveOptions plan;
|}.

(** ** The script (lines 14-165) *)

Definition buildConfig : EnvM ConfigInput :=
  dev <- isDev ;;
  shouldWatch' <- shouldWatch ;;
  versionArray <- resolveVersion ;;
  let label := versionLabel versionArray in
  let name := displayName dev label in
  let bp := bpManifest name versionArray in
  let rp := rpManifest name versionArray in
  plan <- targetPlan dev label ;;
  ret (config dev shouldWatch' bp rp plan).

(** The variables every run reads first, in order. *)
Definition headerVars : list string := ["DEV"; "WATCH"; "VERSION"].

(** The raw version string the script parses. *)
Definition rawVersion (e : env) : string := from_option id "0.0.1" (e !! "VERSION").

(** The specification's description of the resolved configuration
    (sections 4.1-4.5 and 6): the version parses to three components, the
    manifests are the two documents of the specification named by the
    display name of the mode, the output directories and archives are the
    layout of section 6 for the mode, and the watch and source-map flags
    follow the environment. *)
Record config_spec (e : env) (cfg : ConfigInput) : Prop := {
  cs_version : ∃ v, parseVersionString (rawVersion e) = inr v ∧ length v = 3 ∧
    let dev := js_Boolean (e !! "DEV") in
    let name := displayName dev (versionLabel v) in
    decode_manifest (bp_manifest (behaviorPack cfg)) = Some (behavior_manifest name v)
    ∧ decode_manifest (rp_manifest (resourcePack cfg)) = Some (resource_manifest name v)
    ∧ (dev = false →
         bp_targetDir (behaviorPack cfg) = ["build/" +:+ versionLabel v +:+ "/bp"]
         ∧ rp_targetDir (resourcePack cfg) = ["build/" +:+ versionLabel v +:+ "/rp"]
         ∧ map outFile (archive cfg) =
             ["build/" +:+ versionLabel v +:+ "/untitled-addon-" +:+ versionLabel v +:+ ".mcaddon";
              "build/" +:+ versionLabel v +:+ "/untitled-addon-" +:+ versionLabel v +:+ ".zip"]);
  cs_dev : js_Boolean (e !! "DEV") = true →
    ∃ bp rp, e !! "DEV_BEHAVIOR_PACKS_DIR" = Some bp ∧ e !! "DEV_RESOURCE_PACKS_DIR" = Some rp
    ∧ bp_targetDir (behaviorPack cfg) = ["build/dev/bp"; posix.join [bp; "untitled-addon-bp-dev"]]
    ∧ rp_targetDir (resourcePack cfg) = ["build/dev/rp"; posix.join [rp; "untitled-addon-rp-dev"]]
    ∧ archive cfg = [];
  cs_watch : watch cfg = js_Boolean (e !! "WATCH");
  cs_sourceMap : sourceMap (scripts (behaviorPack cfg)) = js_Boolean (e !! "DEV");
  cs_srcDirs : bp_srcDir (behaviorPack cfg) = "src/bp" ∧ rp_srcDir (resourcePack cfg) = "src/rp";
}.

(** ** The orchestrator: the contract of [builder.build] (section 4.6) *)

(** Where the bundler writes the bundle of the script entry, relative to a
    behaviour output directory: the entry's path under the pack's source
    directory with the [.ts] extension replaced by [.js]
    ([src/bp/scripts/index.ts] gives [scripts/index.js], the "file result
    of the bundle process" of line 72). *)
Definition bundle_output (srcDir entry : string) : option string :=
  match strip_prefix (srcDir +:+ "/") entry with
  | None => None
  | Some rel =>
      let n := String.length rel in
      if String.eqb (String.substring (n - 3) 3 rel) ".ts"
      then Some (String.substring 0 (n - 3) rel +:+ ".js") else None
  end.

(** A build cycle over an orchestrator state [St]: every behaviour output
    directory receives the behaviour manifest and every resource output
    directory the resource manifest, when no directory is shared by the two
    packs, every archive requested is written, and the bundle of the
    script entry is written into every behaviour output directory. *)
Class Orchestrator (St : Type) := {
  build : ConfigInput → St → St;
  manifest_in : St → string → option json;
  archive_in : St → string → bool;
  file_in : St → string → bool;
  build_bp_manifest cfg s d :
    NoDup (bp_targetDir (behaviorPack cfg) ++ rp_targetDir (resourcePack cfg)) →
    d ∈ bp_targetDir (behaviorPack cfg) →
    manifest_in (build cfg s) d = Some (bp_manifest (behaviorPack cfg));
  build_rp_manifest cfg s d :
    d ∈ rp_targetDir (resourcePack cfg) →
    manifest_in (build cfg s) d = Some (rp_manifest (resourcePack cfg));
  build_archives cfg s a :
    a ∈ archive cfg → archive_in (build cfg s) (outFile a) = true;
  build_bundle cfg s d out :
    d ∈ bp_targetDir (behaviorPack cfg) →
    bundle_output (bp_srcDir (behaviorPack cfg)) (entry (scripts (behaviorPack cfg))) = Some out →
    file_in (build cfg s) (d </> out) = true;
}.

(** [await builder.build(config)] (line 167): the script resolves its
    configuration once, and only a resolved configuration reaches the
    orchestrator. *)
Definition main {St : Type} `{!Orchestrator St} (e : env) (s : St)
    : list string * (ConfigError + St) :=
  match buildConfig e with
  | (l, inl err) => (l, inl err)
  | (l, inr cfg) => (l, inr (build cfg s))
  end.

(** Every output directory holds its pack's manifest, every archive is
    written, every behaviour output directory holds the bundle. *)
Definition installed {St : Type} `{!Orchestrator St} (cfg : ConfigInput) (s : St) : Prop :=
  (∀ d, d ∈ bp_targetDir (behaviorPack cfg) → manifest_in s d = Some (bp_manifest (behaviorPack cfg)))
  ∧ (∀ d, d ∈ rp_targetDir (resourcePack cfg) → manifest_in s d = Some (rp_manifest (resourcePack cfg)))
  ∧ (∀ a, a ∈ archive cfg → archive_in s (outFile a) = true)
  ∧ (∀ d out, d ∈ bp_targetDir (behaviorPack cfg) →
       bundle_output (bp_srcDir (behaviorPack cfg)) (entry (scripts (behaviorPack cfg)))
         = Some out →
       file_in s (d </> out) = true).

(** A file system of manifests (by directory) and archives (by path). *)
Record FsState := {
  fs_manifests : gmap string json;
  fs_archives : gset string;
  fs_files : gset string;
}.

Definition fs_empty : FsState := {| fs_manifests := ∅; fs_archives := ∅; fs_files := ∅ |}.

Definition write_all {A} (dirs : list string) (m : A) (fs : gmap string A)
    : gmap string A :=
  foldl (λ acc d, <[d := m]> acc) fs dirs.

(** One cycle: the behaviour manifests, then the resource manifests, then
    the archives, and the bundle in every behaviour output directory. *)
Definition fs_build (cfg : ConfigInput) (s : FsState) : FsState := {|
  fs_manifests :=
    write_all (rp_targetDir (resourcePack cfg)) (rp_manifest (resourcePack cfg))
      (write_all (bp_targetDir (behaviorPack cfg)) (bp_manifest (behaviorPack cfg))
         (fs_manifests s));
  fs_archives := list_to_set (map outFile (archive cfg)) ∪ fs_archives s;
  fs_files :=
    match bundle_output (bp_srcDir (behaviorPack cfg)) (entry (scripts (behaviorPack cfg))) with
    | Some out => list_to_set (map (λ d, d </> out) (bp_targetDir (behaviorPack cfg)))
    | None => ∅
    end ∪ fs_files s;
|}.

(** ** The run of the script, by cases *)

Lemma buildConfig_run (e : env) :
  buildConfig e =
  match parseVersionString (rawVersion e) with
  | inl err => (headerVars, inl err)
  | inr v =>
      let dev := js_Boolean (e !! "DEV") in
      match targetPlan dev (versionLabel v) e with
      | (l, inl err) => (headerVars ++ l, inl err)
      | (l, inr plan) =>
          (headerVars ++ l,
           inr (config dev (js_Boolean (e !! "WATCH"))
                  (bpManifest (displayName dev (versionLabel v)) v)
                  (rpManifest (displayName dev (versionLabel v)) v) plan))
      end
  end.
Proof.
  unfold buildConfig, bind. rewrite isDev_run, shouldWatch_run, resolveVersion_run.
  fold (rawVersion e). destruct (parseVersionString (rawVersion e)) as [err|v]; [done|].
  cbn. destruct (targetPlan _ _ e) as [l [err|plan]]; by rewrite ?app_nil_r.
Qed.

(** ** Properties of the script *)

(** C2: the script fails in exactly the two cases of the specification: a
    version string that is not three integers (whatever the mode), or
    development mode with a live-pack directory missing, the behaviour
    pack's one reported first. *)
Theorem buildConfig_error_iff (e : env) (err : ConfigError) :
  outcome buildConfig e = inl err ↔
    (version_shape (rawVersion e) = false ∧ err = InvalidVersion (rawVersion e))
    ∨ (version_shape (rawVersion e) = true ∧ js_Boolean (e !! "DEV") = true
       ∧ ((e !! "DEV_BEHAVIOR_PACKS_DIR" = None ∧ err = MissingEnv "DEV_BEHAVIOR_PACKS_DIR")
          ∨ (e !! "DEV_BEHAVIOR_PACKS_DIR" ≠ None ∧ e !! "DEV_RESOURCE_PACKS_DIR" = None
             ∧ err = MissingEnv "DEV_RESOURCE_PACKS_DIR"))).
Proof.
  unfold outcome. rewrite buildConfig_run. pose proof (parse_shape (rawVersion e)) as Hs.
  destruct (parseVersionString (rawVersion e)) as [err'|v]; simpl.
  - destruct Hs as [-> ->]. naive_solver.
  - destruct (js_Boolean (e !! "DEV")).
    + rewrite targetPlan_dev_run.
      destruct (e !! "DEV_BEHAVIOR_PACKS_DIR"), (e !! "DEV_RESOURCE_PACKS_DIR");
        simpl; rewrite ?Hs; intuition congruence.
    + rewrite targetPlan_prod_run. simpl. intuition congruence.
Qed.

(** C22: the script reads DEV, WATCH and VERSION, in that order, and then,
    only in development mode with a valid version, the behaviour-pack
    directory and, if that one is present, the resource-pack directory. *)
Theorem buildConfig_reads (e : env) :
  reads buildConfig e =
  headerVars ++
    (if version_shape (rawVersion e) && js_Boolean (e !! "DEV") then
       (if bool_decide (e !! "DEV_BEHAVIOR_PACKS_DIR" = None)
        then ["DEV_BEHAVIOR_PACKS_DIR"] else devDirVars)
     else []).
Proof.
  unfold reads. rewrite buildConfig_run. pose proof (parse_shape (rawVersion e)) as Hs.
  destruct (parseVersionString (rawVersion e)) as [err'|v].
  - destruct Hs as [_ ->]. done.
  - rewrite Hs. cbv zeta. destruct (js_Boolean (e !! "DEV")).
    + rewrite targetPlan_dev_run.
      destruct (e !! "DEV_BEHAVIOR_PACKS_DIR"), (e !! "DEV_RESOURCE_PACKS_DIR"); done.
    + by rewrite targetPlan_prod_run.
Qed.

(** C1: a configuration the script resolves satisfies the specification's
    description of it: the resolved configuration refines the abstract
    configuration of sections 4 and 6. *)
Theorem buildConfig_refines (e : env) (l : list string) (cfg : ConfigInput) :
  buildConfig e = (l, inr cfg) → config_spec e cfg.
Proof.
  rewrite buildConfig_run. destruct (parseVersionString (rawVersion e)) as [err|v] eqn:Hv;
    [done|].
  cbv zeta. destruct (js_Boolean (e !! "DEV")) eqn:Hdev.
  - rewrite targetPlan_dev_run.
    destruct (e !! "DEV_BEHAVIOR_PACKS_DIR") as [bp|] eqn:Hb,
      (e !! "DEV_RESOURCE_PACKS_DIR") as [rp|] eqn:Hr; try done.
    intros [= _ <-]. split; cbn; rewrite ?Hdev; try done.
    + exists v. split_and!; [done | by eapply parse_length | apply decode_bpManifest
        | apply decode_rpManifest | done].
    + intros _. by exists bp, rp.
  - rewrite targetPlan_prod_run, prodTargets_label. intros [= _ <-].
    split; cbn; rewrite ?Hdev; try done.
    exists v. split_and!; [done | by eapply parse_length | apply decode_bpManifest
      | apply decode_rpManifest | done].
Qed.

Lemma buildConfig_refines_witness :
  ∃ cfg, buildConfig {[ "VERSION" := "1.4.2" ]} = (headerVars, inr cfg)
    ∧ config_spec {[ "VERSION" := "1.4.2" ]} cfg.
Proof.
  eexists. split; [reflexivity|].
  apply (buildConfig_refines _ headerVars). reflexivity.
Defined.

(** The variables outside the two live-pack directories. *)
Lemma dev_dirs_equiv_other (e1 e2 : env) (k : string) :
  dev_dirs_equiv e1 e2 → k ∉ devDirVars → e1 !! k = e2 !! k.
Proof. intros He Hk. specialize (He k). by rewrite decide_False in He. Qed.

(** C14: the script resolves the same configuration, and reads the same
    variables, from two environments that spell the live-pack directories
    differently but name the same directories (["/mc/bp"], ["/mc/bp/"],
    ["/mc/./x/../bp"]): [path.join] under the slug's relative name depends
    on the directory only, not on its spelling. *)
Theorem buildConfig_dir_equiv (e1 e2 : env) :
  dev_dirs_equiv e1 e2 → buildConfig e1 = buildConfig e2.
Proof.
  intros He. rewrite !buildConfig_run.
  assert (∀ k, k ∈ headerVars → e1 !! k = e2 !! k) as Hh.
  { intros k Hk. apply (dev_dirs_equiv_other _ _ k He).
    unfold headerVars, devDirVars in *. set_solver. }
  unfold rawVersion. rewrite (Hh "DEV"), (Hh "WATCH"), (Hh "VERSION") by set_solver.
  destruct (parseVersionString _); [done|]. cbv zeta. by rewrite (targetPlan_proper _ _ e1 e2 He).
Qed.

Lemma buildConfig_dir_equiv_witness :
  buildConfig (<["DEV_BEHAVIOR_PACKS_DIR" := "/mc/bp"]>
                 (<["DEV_RESOURCE_PACKS_DIR" := "/mc/rp"]> {[ "DEV" := "1" ]}))
  = buildConfig (<["DEV_BEHAVIOR_PACKS_DIR" := "/mc/bp/"]>
                 (<["DEV_RESOURCE_PACKS_DIR" := "/mc/./x/../rp"]> {[ "DEV" := "1" ]})).
Proof. apply buildConfig_dir_equiv, dev_dirs_equiv_set; by vm_compute. Defined.

(** ** The file-system orchestrator *)

Lemma lookup_write_all {A} (dirs : list string) (m : A) (fs : gmap string A) (d : string) :
  write_all dirs m fs !! d = if bool_decide (d ∈ dirs) then Some m else fs !! d.
Proof.
  unfold write_all. revert fs. induction dirs as [|x dirs IH]; intros fs; simpl.
  - done.
  - rewrite IH. destruct (decide (d = x)) as [->|Hne].
    + rewrite lookup_insert_eq. by repeat case_bool_decide; set_solver.
    + rewrite lookup_insert_ne by done. by repeat case_bool_decide; set_solver.
Qed.

Lemma fs_build_bp (cfg : ConfigInput) (s : FsState) (d : string) :
  NoDup (bp_targetDir (behaviorPack cfg) ++ rp_targetDir (resourcePack cfg)) →
  d ∈ bp_targetDir (behaviorPack cfg) →
  fs_manifests (fs_build cfg s) !! d = Some (bp_manifest (behaviorPack cfg)).
Proof.
  intros Hnd Hd. cbn. rewrite !lookup_write_all.
  apply NoDup_app in Hnd as (_ & Hdis & _).
  rewrite bool_decide_eq_false_2 by (intros Hr; by apply (Hdis d)).
  by rewrite bool_decide_eq_true_2.
Qed.

Lemma fs_build_rp (cfg : ConfigInput) (s : FsState) (d : string) :
  d ∈ rp_targetDir (resourcePack cfg) →
  fs_manifests (fs_build cfg s) !! d = Some (rp_manifest (resourcePack cfg)).
Proof. intros Hd. cbn. rewrite lookup_write_all. by rewrite bool_decide_eq_true_2. Qed.

Lemma fs_build_archives (cfg : ConfigInput) (s : FsState) (a : ArchiveOptions) :
  a ∈ archive cfg → bool_decide (outFile a ∈ fs_archives (fs_build cfg s)) = true.
Proof.
  intros Ha. apply bool_decide_eq_true_2. cbn. apply elem_of_union_l.
  apply elem_of_list_to_set, list_elem_of_fmap. by exists a.
Qed.

Lemma fs_build_bundle (cfg : ConfigInput) (s : FsState) (d out : string) :
  d ∈ bp_targetDir (behaviorPack cfg) →
  bundle_output (bp_srcDir (behaviorPack cfg)) (entry (scripts (behaviorPack cfg))) = Some out →
  bool_decide (d </> out ∈ fs_files (fs_build cfg s)) = true.
Proof.
  intros Hd Ho. apply bool_decide_eq_true_2. cbn. rewrite Ho. apply elem_of_union_l.
  apply elem_of_list_to_set, list_elem_of_fmap. by exists d.
Qed.

#[export] Instance FsOrchestrator : Orchestrator FsState := {|
  build := fs_build;
  manifest_in s d := fs_manifests s !! d;
  archive_in s f := bool_decide (f ∈ fs_archives s);
  build_bp_manifest := fs_build_bp;
  build_rp_manifest := fs_build_rp;
  file_in s f := bool_decide (f ∈ fs_files s);
  build_archives := fs_build_archives;
  build_bundle := fs_build_bundle;
|}.

(** ** The script against the orchestrator *)

Lemma buildConfig_inr (e : env) (l : list string) (cfg : ConfigInput) :
  buildConfig e = (l, inr cfg) →
  ∃ v l' plan, parseVersionString (rawVersion e) = inr v
    ∧ targetPlan (js_Boolean (e !! "DEV")) (versionLabel v) e = (l', inr plan)
    ∧ cfg = config (js_Boolean (e !! "DEV")) (js_Boolean (e !! "WATCH"))
              (bpManifest (displayName (js_Boolean (e !! "DEV")) (versionLabel v)) v)
              (rpManifest (displayName (js_Boolean (e !! "DEV")) (versionLabel v)) v) plan.
Proof.
  rewrite buildConfig_run. destruct (parseVersionString _) as [|v]; [done|].
  cbv zeta. destruct (targetPlan _ _ e) as [l' [|plan]] eqn:Ht; [done|].
  intros [= _ <-]. by exists v, l', plan.
Qed.

Lemma buildConfig_dirs_NoDup (e : env) (l : list string) (cfg : ConfigInput) :
  buildConfig e = (l, inr cfg) →
  NoDup (bp_targetDir (behaviorPack cfg) ++ rp_targetDir (resourcePack cfg)).
Proof.
  intros (v & l' & plan & _ & Ht & ->)%buildConfig_inr. cbn.
  by eapply targetPlan_dirs_NoDup.
Qed.

Lemma build_installed {St : Type} `{!Orchestrator St} (cfg : ConfigInput) (s : St) :
  NoDup (bp_targetDir (behaviorPack cfg) ++ rp_targetDir (resourcePack cfg)) →
  installed cfg (build cfg s).
Proof.
  intros Hnd. split_and!; intros.
  - by apply build_bp_manifest.
  - by apply build_rp_manifest.
  - by apply build_archives.
  - by apply build_bundle.
Qed.

(** C3: for every orchestrator that honours the contract, a successful run
    of the script leaves in each behaviour output directory a manifest that
    decodes to the specification's behaviour manifest (named by the mode's
    display name, at the resolved version), the resource manifest in each
    resource output directory, and every archive requested. *)
Theorem main_installs_manifests {St : Type} `{!Orchestrator St} (e : env) (s s' : St)
    (l : list string) :
  main e s = (l, inr s') →
  ∃ cfg v, buildConfig e = (l, inr cfg) ∧ parseVersionString (rawVersion e) = inr v
    ∧ (∀ d, d ∈ bp_targetDir (behaviorPack cfg) →
         manifest_in s' d ≫= decode_manifest
         = Some (behavior_manifest (displayName (js_Boolean (e !! "DEV")) (versionLabel v)) v))
    ∧ (∀ d, d ∈ rp_targetDir (resourcePack cfg) →
         manifest_in s' d ≫= decode_manifest
         = Some (resource_manifest (displayName (js_Boolean (e !! "DEV")) (versionLabel v)) v))
    ∧ (∀ a, a ∈ archive cfg → archive_in s' (outFile a) = true).
Proof.
  unfold main. destruct (buildConfig e) as [l0 [err|cfg]] eqn:Hb; [done|].
  intros [= <- <-].
  destruct (build_installed cfg s (buildConfig_dirs_NoDup _ _ _ Hb)) as (Hbp & Hrp & Har & _).
  destruct (buildConfig_inr _ _ _ Hb) as (v & l' & plan & Hv & _ & Hcfg).
  exists cfg, v. split_and!; [done | done | | | done].
  - intros d Hd. rewrite (Hbp d Hd), Hcfg. apply decode_bpManifest.
  - intros d Hd. rewrite (Hrp d Hd), Hcfg. apply decode_rpManifest.
Qed.

Lemma main_installs_manifests_witness :
  ∃ s', main {[ "VERSION" := "1.4.2" ]} fs_empty
          = (headerVars, inr s')
    ∧ ∃ cfg v, buildConfig {[ "VERSION" := "1.4.2" ]} = (headerVars, inr cfg)
      ∧ parseVersionString (rawVersion {[ "VERSION" := "1.4.2" ]}) = inr v.
Proof.
  pose (s0 := fs_empty).
  pose (s' := match snd (main {[ "VERSION" := "1.4.2" ]} s0) with
              | inr x => x | inl _ => s0 end).
  assert (main {[ "VERSION" := "1.4.2" ]} s0 = (headerVars, inr s')) as Hm by reflexivity.
  exists s'. split; [exact Hm|].
  destruct (main_installs_manifests {[ "VERSION" := "1.4.2" ]} s0 s' headerVars Hm)
    as (cfg & v & Hb & Hv & _).
  exists cfg, v. split; assumption.
Defined.

(** C9: the pack identities never change: every successful run, in either
    mode and at any version, emits a behaviour manifest whose header and
    modules carry the identifiers [bpHeader], [bpDataModule] and
    [bpScriptsModule] of the UUID table, and a resource manifest carrying
    [rpHeader] and [rpResourcesModule], so upgrades of an installed pack
    keep its identity. *)
Theorem manifest_uuids_stable (e : env) (l : list string) (cfg : ConfigInput) :
  buildConfig e = (l, inr cfg) →
  doc_uuids <$> decode_manifest (bp_manifest (behaviorPack cfg))
    = Some [bpHeader uuids; bpDataModule uuids; bpScriptsModule uuids]
  ∧ doc_uuids <$> decode_manifest (rp_manifest (resourcePack cfg))
    = Some [rpHeader uuids; rpResourcesModule uuids].
Proof.
  intros (v & l' & plan & _ & _ & ->)%buildConfig_inr. cbn [config behaviorPack resourcePack
    bp_manifest rp_manifest]. by rewrite decode_bpManifest, decode_rpManifest.
Qed.

Lemma manifest_uuids_stable_witness :
  ∃ cfg, buildConfig {[ "VERSION" := "3.1.4" ]} = (headerVars, inr cfg)
    ∧ doc_uuids <$> decode_manifest (bp_manifest (behaviorPack cfg))
        = Some [bpHeader uuids; bpDataModule uuids; bpScriptsModule uuids]
    ∧ doc_uuids <$> decode_manifest (rp_manifest (resourcePack cfg))
        = Some [rpHeader uuids; rpResourcesModule uuids].
Proof.
  eexists. split; [reflexivity|]. apply (manifest_uuids_stable {[ "VERSION" := "3.1.4" ]} headerVars).
  reflexivity.
Defined.

(** C4: for every orchestrator that honours the contract, after a
    successful run each behaviour output directory holds a manifest whose
    script module names as its entry a file the build wrote into that
    directory: the manifest's [entry] (line 72), the configured script
    entry (line 151) and the pack's source directory (line 147) agree. *)
Theorem main_bundles_entry {St : Type} `{!Orchestrator St} (e : env) (s s' : St)
    (l : list string) :
  main e s = (l, inr s') →
  ∃ cfg, buildConfig e = (l, inr cfg) ∧
    ∀ d, d ∈ bp_targetDir (behaviorPack cfg) →
      ∃ m u v p, manifest_in s' d ≫= decode_manifest = Some m
        ∧ ScriptModule u v "javascript" p ∈ modules m ∧ file_in s' (d </> p) = true.
Proof.
  unfold main. destruct (buildConfig e) as [l0 [err|cfg]] eqn:Hb; [done|]. intros [= <- <-].
  pose proof (buildConfig_dirs_NoDup _ _ _ Hb) as Hnd.
  destruct (buildConfig_inr _ _ _ Hb) as (v & l' & plan & _ & _ & Hcfg).
  exists cfg. split; [done|]. intros d Hd.
  eexists _, (bpScriptsModule uuids), v, "scripts/index.js". split_and!.
  - rewrite (build_bp_manifest cfg s d Hnd Hd), Hcfg. apply decode_bpManifest.
  - cbn. set_solver.
  - apply build_bundle; [done|]. by rewrite Hcfg.
Qed.

Lemma main_bundles_entry_witness :
  ∃ s', main {[ "VERSION" := "1.4.2" ]} fs_empty = (headerVars, inr s')
    ∧ ∃ cfg, buildConfig {[ "VERSION" := "1.4.2" ]} = (headerVars, inr cfg).
Proof.
  pose (s' := match snd (main {[ "VERSION" := "1.4.2" ]} fs_empty) with
              | inr x => x | inl _ => fs_empty end).
  assert (main {[ "VERSION" := "1.4.2" ]} fs_empty = (headerVars, inr s')) as Hm by reflexivity.
  exists s'. split; [exact Hm|].
  destruct (main_bundles_entry {[ "VERSION" := "1.4.2" ]} fs_empty s' headerVars Hm)
    as (cfg & Hb & _).
  by exists cfg.
Defined.

